(** * SEP-10 challenge helpers ([src/helpers/sep10.ts]): a shallow embedding

    The file embeds [getChallenge] and [postChallenge] together with the two
    failure catalogs they draw from, and states the properties of the
    challenge/response pipeline over that embedding.

    Conventions.
    - JavaScript values that the code handles at type [any] (the parsed TOML
      object, JSON response bodies, the decoded JWT) are values of [JsValue];
      truthiness, property access and string coercion follow ECMAScript.
    - The code never reads the [Result] it is handed: it only assigns
      [failure], [expected], [actual], pushes onto [networkCalls] and attaches
      a response to the call it has just pushed.  A run is therefore a list
      of [Write]s together with a completion (a returned value or a thrown
      exception); [apply_writes] replays the writes on a [Result].
    - The libraries the code calls into (node-fetch, stellar-sdk,
      jsonwebtoken, jsonschema) are collaborators: section variables whose
      results are completions, so that a rejected promise or a thrown error
      is a value the embedding can branch on exactly where the source has a
      [try]/[catch], and propagates where it has none. *)

From stdpp Require Import base option list gmap strings fin_maps pretty.
From Stdlib Require Import ZArith Lia Ascii.

Set Warnings "-register-all".

Local Open Scope string_scope.
Local Open Scope list_scope.
Local Open Scope Z_scope.

(** ** JavaScript values *)

Inductive JsValue : Type :=
| JUndefined
| JNull
| JBool (b : bool)
| JNum (n : Z)
| JStr (s : string)
| JArr (elems : list JsValue)
| JObj (props : gmap string JsValue).

(** ECMAScript [ToBoolean].  Numbers are integers here: the only numbers the
    code inspects are HTTP statuses and JSON fields tested for truthiness. *)
Definition truthy (v : JsValue) : bool :=
  match v with
  | JUndefined | JNull => false
  | JBool b => b
  | JNum n => negb (n =? 0)
  | JStr s => negb (String.eqb s "")
  | JArr _ | JObj _ => true
  end.

(** [typeof v === "object"] *)
Definition typeof_object (v : JsValue) : bool :=
  match v with
  | JNull | JArr _ | JObj _ => true
  | _ => false
  end.

(** ECMAScript [ToString], as used by [+] with a string operand and by
    template literals. *)
Fixpoint to_js_string (v : JsValue) : string :=
  match v with
  | JUndefined => "undefined"
  | JNull => "null"
  | JBool true => "true"
  | JBool false => "false"
  | JNum n => pretty n
  | JStr s => s
  | JArr elems =>
      String.concat ","
        ((fix each (l : list JsValue) : list string :=
            match l with
            | [] => []
            | JUndefined :: l' => "" :: each l'
            | JNull :: l' => "" :: each l'
            | x :: l' => to_js_string x :: each l'
            end) elems)
  | JObj _ => "[object Object]"
  end.

(** A completion: the value an expression evaluates to, or the exception it
    throws (for an awaited promise: its rejection), carrying [e.message]. *)
Inductive Completion (A : Type) : Type :=
| Normal (a : A)
| Thrown (message : string).
Arguments Normal {A} a.
Arguments Thrown {A} message.

(** Property read [v.k].  Reading a property of [undefined] or [null] throws
    a [TypeError]; primitives and arrays have no own property under the keys
    the code reads, except [length]. *)
Definition get_prop (v : JsValue) (k : string) : Completion JsValue :=
  match v with
  | JUndefined => Thrown "TypeError: Cannot read properties of undefined"
  | JNull => Thrown "TypeError: Cannot read properties of null"
  | JObj props => Normal (default JUndefined (props !! k))
  | JStr s => Normal (if String.eqb k "length" then JNum (Z.of_nat (String.length s)) else JUndefined)
  | JArr l => Normal (if String.eqb k "length" then JNum (Z.of_nat (List.length l)) else JUndefined)
  | JBool _ | JNum _ => Normal JUndefined
  end.

(** ** Collaborator data: stellar-sdk and node-fetch objects *)

Record Keypair : Type := mkKeypair {
  publicKey : string;            (* [publicKey()], the base32 account id  *)
  secretSeed : option string     (* absent for a verify-only keypair      *)
}.

Record Transaction : Type := mkTransaction {
  sequence : string;
  signatures : list string
}.

Record FeeBumpTransaction : Type := mkFeeBump {
  innerTransaction : Transaction;
  feeSource : string
}.

(** What [TransactionBuilder.fromXDR] returns: [Transaction | FeeBumpTransaction].
    [instanceof FeeBumpTransaction] is the match on the constructor. *)
Inductive Decoded : Type :=
| IsTransaction (tx : Transaction)
| IsFeeBump (fb : FeeBumpTransaction).

Inductive Body : Type :=
| NoBody
| JsonBody (v : JsValue)                       (* [JSON.stringify(v)]      *)
| FormBody (params : list (string * string)).  (* [new URLSearchParams(..)] *)

Record Request : Type := mkRequest {
  method : string;
  url : string;
  req_headers : list (string * string);
  body : Body
}.

(** A response as the code observes it: the status, the header table (names
    lower-cased, as node-fetch's [Headers] keeps them) and what the promise
    of [clone().json()] settles with. *)
Record Response : Type := mkResponse {
  status : Z;
  headers : gmap string string;
  json : Completion JsValue
}.

Definition lower_ascii (c : ascii) : ascii :=
  let n := nat_of_ascii c in
  if andb (Nat.leb 65 n) (Nat.leb n 90) then ascii_of_nat (n + 32) else c.

Fixpoint lowercase (s : string) : string :=
  match s with
  | EmptyString => EmptyString
  | String c s' => String (lower_ascii c) (lowercase s')
  end.

(** [response.headers.get(name)]: [null] when the header is absent. *)
Definition headers_get (r : Response) (name : string) : option string :=
  headers r !! lowercase name.

(** ** Failures and the two catalogs *)

Definition Args : Type := gmap string JsValue.

(** [args.k] rendered inside a template literal. *)
Definition arg (args : Args) (k : string) : string :=
  to_js_string (default JUndefined (args !! k)).

(** Modelled from the spec: the [Failure] type of [../types], "a named,
    parameterized description" with a [name] and a rendering function. *)
Record Failure : Type := mkFailureMode {
  name : string;
  text : Args -> string
}.

Definition LF : string := String "010"%char EmptyString.

(** The object literals of [getChallengeFailureModes], in source order. *)
Definition getChallengeFailureModes_literal : list (string * Failure) :=
  [ ("NO_TOML",
     {| name := "no TOML file";
        text := fun _ => "Unable to fetch TOML" |});
    ("NO_WEB_AUTH_ENDPOINT",
     {| name := "no WEB_AUTH_ENDPOINT";
        text := fun _ => "No WEB_AUTH_ENDPOINT in TOML file" |});
    ("CONNECTION_ERROR",
     {| name := "connection error";
        text := fun args =>
          "A connection failure occured when making a request to: " +:+
          LF +:+ LF +:+ arg args "url" +:+ LF +:+ LF +:+
          "Make sure that CORS is enabled." |});
    ("UNEXPECTED_STATUS_CODE",
     {| name := "unexpected status code";
        text := fun _ => "200 Success is expected for valid requests" |});
    ("BAD_CONTENT_TYPE",
     {| name := "bad content type";
        text := fun _ =>
          "Content-Type headers for responses must be 'application/json'" |});
    ("NO_TRANSACTION",
     {| name := "missing 'transaction' field";
        text := fun _ =>
          "GET /auth response bodies must include a 'transaction' attribute containing a challenge transaction." +:+
          "See here for more information:" +:+ LF +:+ LF +:+
          "https://github.com/stellar/stellar-protocol/blob/master/ecosystem/sep-0010.md#response" |});
    ("DESERIALIZATION_FAILED",
     {| name := "transaction deserialization failed";
        text := fun args =>
          "Unable to decode the 'transaction' value:" +:+ LF +:+ LF +:+ ". " +:+
          arg args "transaction" +:+ LF +:+ LF +:+
          "With network passphrase: " +:+ arg args "networkPassphrase" +:+ LF +:+ LF +:+
          "'transaction' must be a base64-encoded string of the Stellar transaction XDR." |});
    ("INVALID_TRANSACTION_TYPE",
     {| name := "invalid transaction type";
        text := fun _ => "FeeBumpTransactions are not valid challenge transactions" |});
    ("NONZERO_SEQUENCE_NUMBER",
     {| name := "non-zero sequence number";
        text := fun _ =>
          "Challenge transaction must have a sequence number of 0. See the documentation:" +:+ LF +:+ LF +:+
          "https://github.com/stellar/stellar-protocol/blob/master/ecosystem/sep-0010.md#response" |}) ].

(** The object literals written out in [postChallengeFailureModes], before
    the spread. *)
Definition postChallengeFailureModes_literal : list (string * Failure) :=
  [ ("NO_TOKEN",
     {| name := "no token";
        text := fun _ =>
          "A 'token' attribute must be present in responses to valid POST /auth requests" |});
    ("JWT_DECODE_FAILURE",
     {| name := "JWT decode failure";
        text := fun args =>
          "Unable to decode the JWT." +:+ LF +:+ LF +:+
          "The jsonwebtoken library returned: " +:+ arg args "error" |});
    ("JWT_NOT_JSON",
     {| name := "JWT contents is not JSON";
        text := fun _ => "jsonwebtoken was unable to parse the JWT's contents as JSON" |});
    ("INVALID_JWT_SCHEMA",
     {| name := "invalid JWT content schema";
        text := fun args => arg args "errors" |});
    ("INVALID_JWT_SUB",
     {| name := "invalid jwt 'sub' attribute";
        text := fun _ =>
          "The 'sub' attribute must be the public key of the account " +:+
          "authenticating via SEP-10 - the client's public key." |}) ].

(** Failure objects live in a heap; a catalog maps its keys to references.
    Two catalog entries are the same instance exactly when they hold the
    same reference. *)
Definition Ref : Type := nat.
Definition Heap : Type := list Failure.

(** Evaluating an object literal whose property values are themselves object
    literals: each value is allocated, in order, and the key is bound to the
    fresh reference. *)
Fixpoint object_literal (entries : list (string * Failure))
    (acc : gmap string Ref) (h : Heap) : gmap string Ref * Heap :=
  match entries with
  | [] => (acc, h)
  | (k, f) :: rest => object_literal rest (<[k := List.length h]> acc) (h ++ [f])
  end.

(** [{ ...target, ...source }] with [source] spread last: every own property
    of [source] is copied (the reference, not the object), overriding
    [target] on equal keys. *)
Definition spread (target source : gmap string Ref) : gmap string Ref :=
  source ∪ target.

(** Module evaluation: the GET catalog, then the POST catalog. *)
Definition module_load : gmap string Ref * gmap string Ref * Heap :=
  let '(getModes, h1) := object_literal getChallengeFailureModes_literal ∅ [] in
  let '(postOwn, h2) := object_literal postChallengeFailureModes_literal ∅ h1 in
  (getModes, spread postOwn getModes, h2).

Definition getChallengeFailureModes : gmap string Ref := module_load.1.1.
Definition postChallengeFailureModes : gmap string Ref := module_load.1.2.
Definition failureHeap : Heap := module_load.2.

(** Modelled from the spec: [makeFailure] of [./failure], which "pairs a
    Failure definition with the concrete argument mapping used at the failure
    site, producing the final rendered message".  The definition is kept as
    the reference it was reached through; an [undefined] catalog entry makes
    the call throw on [failure.text]. *)
Record MaterializedFailure : Type := mkMaterialized {
  definition : Ref;
  failure_name : string;
  failure_args : Args;
  message : string
}.

Definition makeFailure (mode : option Ref) (args : Args) : Completion MaterializedFailure :=
  match mode with
  | Some r =>
      match failureHeap !! r with
      | Some f =>
          Normal {| definition := r;
                    failure_name := name f;
                    failure_args := args;
                    message := text f args |}
      | None => Thrown "TypeError: failure.text is not a function"
      end
  | None => Thrown "TypeError: Cannot read properties of undefined (reading 'text')"
  end.

(** ** The Result accumulator *)

(** Modelled from the spec: [NetworkCall] and [Result] of [../types]. *)
Record NetworkCall : Type := mkNetworkCall {
  request : Request;
  response : option Response
}.

Record Result : Type := mkResult {
  networkCalls : list NetworkCall;
  failure : option MaterializedFailure;
  expected : option JsValue;
  actual : option JsValue
}.

(** The writes the code performs on the [Result] it was handed. *)
Inductive Write : Type :=
| PushCall (c : NetworkCall)         (* [result.networkCalls.push(c)]       *)
| AttachResponse (r : Response)      (* [c.response = r], [c] pushed last   *)
| SetFailure (f : MaterializedFailure)
| SetExpected (v : JsValue)
| SetActual (v : JsValue).

(** The call object is shared between the local variable and the array, so
    attaching the response is visible through [result.networkCalls]; the
    object written is the one pushed last. *)
Definition apply_write (r : Result) (w : Write) : Result :=
  match w with
  | PushCall c =>
      mkResult (networkCalls r ++ [c]) (failure r) (expected r) (actual r)
  | AttachResponse resp =>
      mkResult
        (alter (fun c => mkNetworkCall (request c) (Some resp))
               (Nat.pred (List.length (networkCalls r))) (networkCalls r))
        (failure r) (expected r) (actual r)
  | SetFailure f => mkResult (networkCalls r) (Some f) (expected r) (actual r)
  | SetExpected v => mkResult (networkCalls r) (failure r) (Some v) (actual r)
  | SetActual v => mkResult (networkCalls r) (failure r) (expected r) (Some v)
  end.

Definition apply_writes (r : Result) (ws : list Write) : Result :=
  foldl apply_write r ws.

(** ** The effect monad: writes so far, and how the computation completed *)

Definition M (A : Type) : Type := (list Write * Completion A)%type.

#[export] Instance M_ret : MRet M := fun A a => ([], Normal a).

#[export] Instance M_bind : MBind M := fun A B f m =>
  match m with
  | (ws, Normal a) => let '(ws', c) := f a in (ws ++ ws', c)
  | (ws, Thrown e) => (ws, Thrown e)
  end.

Definition emit (w : Write) : M unit := ([w], Normal tt).

(** An expression evaluated outside any [try]: its exception propagates. *)
Definition lift {A} (c : Completion A) : M A := ([], c).

(** [result.failure = makeFailure(mode, args)] *)
Definition assign_failure (mode : option Ref) (args : Args) : M unit :=
  f ← lift (makeFailure mode args); emit (SetFailure f).

Definition writes {A} (m : M A) : list Write := m.1.
Definition completion {A} (m : M A) : Completion A := m.2.

#[export] Instance Completion_ret : MRet Completion := fun A a => Normal a.

#[export] Instance Completion_bind : MBind Completion := fun A B f c =>
  match c with
  | Normal a => f a
  | Thrown e => Thrown e
  end.

(** A value of type [string | null] as a JavaScript value. *)
Definition nullable (o : option string) : JsValue := from_option JStr JNull o.

(** [v !== s] for a string literal [s]: strict, no coercion. *)
Definition strict_neq_string (v : JsValue) (s : string) : bool :=
  match v with
  | JStr s' => negb (String.eqb s' s)
  | _ => true
  end.

(** ** The two operations *)

(** [new Request(tomlObj.WEB_AUTH_ENDPOINT + `?account=${clientKeypair.publicKey()}`)] *)
Definition getAuthCall_request (clientKeypair : Keypair) (endpoint : JsValue) : Request :=
  mkRequest "GET"
    (to_js_string endpoint +:+ "?account=" +:+ publicKey clientKeypair)
    [] NoBody.

(** The [request] of [postChallenge], in its two encodings; [xdr] is
    [challenge.toXDR()] after signing.  A non-string input is coerced to a
    string by the [Request] constructor. *)
Definition postAuthCall_request (useJson : bool) (endpoint : JsValue) (xdr : string) : Request :=
  if useJson then
    mkRequest "POST" (to_js_string endpoint)
      [("Content-Type", "application/json")]
      (JsonBody (JObj {[ "transaction" := JStr xdr ]}))
  else
    mkRequest "POST" (to_js_string endpoint)
      [("Content-Type", "application/x-www-form-urlencoded")]
      (FormBody [("transaction", xdr)]).

Section Sep10.

(** node-fetch: what [await fetch(request)] completes with; a rejection is
    a transport failure. *)
Variable fetch : Request -> Completion Response.

(** stellar-sdk: [TransactionBuilder.fromXDR(envelope, networkPassphrase)],
    [transaction.sign(keypair)] (the transaction with the signature added),
    [transaction.toXDR()] and [Keypair.fromPublicKey(publicKey)]. *)
Variable fromXDR : JsValue -> JsValue -> Completion Decoded.
Variable sign : Transaction -> Keypair -> Completion Transaction.
Variable toXDR : Transaction -> string.
Variable fromPublicKey : JsValue -> Completion Keypair.

(** jsonwebtoken's [decode]; jsonschema's [validate] with the errors it
    reports, each already rendered; [jwtSchema] of [../schemas/sep10]. *)
Variable decode : JsValue -> Completion JsValue.
Variable jwtSchema : JsValue.
Variable validate : JsValue -> JsValue -> list string.

Definition getChallenge (clientKeypair : Keypair) (tomlObj : JsValue)
    : M (option Transaction) :=
  if negb (truthy tomlObj) then
    assign_failure (getChallengeFailureModes !! "NO_TOML") ∅;;
    mret None
  else
  endpoint ← lift (get_prop tomlObj "WEB_AUTH_ENDPOINT");
  if negb (truthy endpoint) then
    assign_failure (getChallengeFailureModes !! "NO_WEB_AUTH_ENDPOINT") ∅;;
    mret None
  else
  let getAuthRequest := getAuthCall_request clientKeypair endpoint in
  emit (PushCall (mkNetworkCall getAuthRequest None));;
  match fetch getAuthRequest with
  | Thrown _ =>
      assign_failure (getChallengeFailureModes !! "CONNECTION_ERROR")
        {[ "url" := JStr (url getAuthRequest) ]};;
      mret None
  | Normal getAuthResponse =>
  emit (AttachResponse getAuthResponse);;
  if negb (status getAuthResponse =? 200) then
    assign_failure (getChallengeFailureModes !! "UNEXPECTED_STATUS_CODE") ∅;;
    emit (SetExpected (JNum 200));;
    emit (SetActual (JNum (status getAuthResponse)));;
    mret None
  else
  let getAuthContentType := nullable (headers_get getAuthResponse "Content-Type") in
  if negb (truthy getAuthContentType)
     || strict_neq_string getAuthContentType "application/json" then
    assign_failure (getChallengeFailureModes !! "BAD_CONTENT_TYPE") ∅;;
    emit (SetExpected (JStr "application/json"));;
    (if truthy getAuthContentType
     then emit (SetActual getAuthContentType) else mret tt);;
    mret None
  else
  responseBody ← lift (json getAuthResponse);
  transaction ← lift (get_prop responseBody "transaction");
  if negb (truthy transaction) then
    assign_failure (getChallengeFailureModes !! "NO_TRANSACTION") ∅;;
    mret None
  else
  match (passphrase ← get_prop tomlObj "NETWORK_PASSPHRASE";
         fromXDR transaction passphrase) with
  | Thrown _ =>
      passphrase ← lift (get_prop tomlObj "NETWORK_PASSPHRASE");
      assign_failure (getChallengeFailureModes !! "DESERIALIZATION_FAILED")
        {[ "transaction" := transaction; "networkPassphrase" := passphrase ]};;
      mret None
  | Normal (IsFeeBump _) =>
      assign_failure (getChallengeFailureModes !! "INVALID_TRANSACTION_TYPE") ∅;;
      mret None
  | Normal (IsTransaction challenge) =>
      if negb (String.eqb (sequence challenge) "0") then
        assign_failure (getChallengeFailureModes !! "NONZERO_SEQUENCE_NUMBER") ∅;;
        mret None
      else
        mret (Some challenge)
  end
  end.

(** [useJson] defaults to [false] in the source. *)
Definition postChallenge (clientKeypair : Keypair) (tomlObj : JsValue)
    (useJson : bool) : M (option JsValue) :=
  fetched ← getChallenge clientKeypair tomlObj;
  match fetched with
  | None => mret None
  | Some challenge =>
  signed ← lift (sign challenge clientKeypair);
  endpoint ← lift (get_prop tomlObj "WEB_AUTH_ENDPOINT");
  let postRequest := postAuthCall_request useJson endpoint (toXDR signed) in
  emit (PushCall (mkNetworkCall postRequest None));;
  match fetch postRequest with
  | Thrown _ =>
      assign_failure (postChallengeFailureModes !! "CONNECTION_ERROR")
        {[ "url" := JStr (url postRequest) ]};;
      mret None
  | Normal postAuthResponse =>
  emit (AttachResponse postAuthResponse);;
  if negb (status postAuthResponse =? 200) then
    assign_failure (postChallengeFailureModes !! "UNEXPECTED_STATUS_CODE") ∅;;
    emit (SetExpected (JNum 200));;
    emit (SetActual (JNum (status postAuthResponse)));;
    mret None
  else
  let postAuthResponseContentType :=
    nullable (headers_get postAuthResponse "Content-Type") in
  if negb (truthy postAuthResponseContentType)
     || strict_neq_string postAuthResponseContentType "application/json" then
    assign_failure (postChallengeFailureModes !! "BAD_CONTENT_TYPE") ∅;;
    emit (SetExpected (JStr "application/json"));;
    (if truthy postAuthResponseContentType
     then emit (SetActual postAuthResponseContentType) else mret tt);;
    mret None
  else
  responseBody ← lift (json postAuthResponse);
  token ← lift (get_prop responseBody "token");
  if negb (truthy token) then
    assign_failure (postChallengeFailureModes !! "NO_TOKEN") ∅;;
    mret None
  else
  match decode token with
  | Thrown e =>
      assign_failure (postChallengeFailureModes !! "JWT_DECODE_FAILURE")
        {[ "error" := JStr e ]};;
      mret None
  | Normal jwtContents =>
  if negb (truthy jwtContents) || negb (typeof_object jwtContents) then
    assign_failure (postChallengeFailureModes !! "JWT_NOT_JSON") ∅;;
    mret None
  else
  let errors := validate jwtContents jwtSchema in
  if negb (Nat.eqb (List.length errors) 0) then
    assign_failure (postChallengeFailureModes !! "INVALID_JWT_SCHEMA")
      {[ "errors" := JStr (String.concat LF errors) ]};;
    mret None
  else
  match (sub ← get_prop jwtContents "sub"; fromPublicKey sub) with
  | Thrown _ =>
      assign_failure (postChallengeFailureModes !! "INVALID_JWT_SUB") ∅;;
      mret None
  | Normal _ =>
      mret (Some token)
  end
  end
  end
  end.

(** A run on a given [Result]: the result after the writes, and the
    completion. *)
Definition run {A} (m : M A) (result : Result) : Result * Completion A :=
  (apply_writes result (writes m), completion m).

End Sep10.

(** ** Observations on a run *)

Definition is_SetFailure (w : Write) : bool :=
  match w with SetFailure _ => true | _ => false end.

Definition is_PushCall (w : Write) : bool :=
  match w with PushCall _ => true | _ => false end.

(** How many times [result.failure] is assigned, and how many calls are
    pushed. *)
Definition failure_assignments (ws : list Write) : nat :=
  List.length (List.filter is_SetFailure ws).

Definition pushes (ws : list Write) : nat :=
  List.length (List.filter is_PushCall ws).

(** The writes performed after the first assignment of [result.failure]. *)
Fixpoint after_first_failure (ws : list Write) : list Write :=
  match ws with
  | [] => []
  | SetFailure _ :: rest => rest
  | _ :: rest => after_first_failure rest
  end.

(** [v.k] for a value on which the read cannot throw. *)
Definition prop (v : JsValue) (k : string) : JsValue :=
  match get_prop v k with
  | Normal x => x
  | Thrown _ => JUndefined
  end.

(** The keys written out in each catalog literal. *)
Definition getChallenge_keys : list string := getChallengeFailureModes_literal.*1.
Definition postChallenge_own_keys : list string := postChallengeFailureModes_literal.*1.

(** Two catalogs hold independent instances under [key] when the entries
    they bind it to are different objects. *)
Definition independent_instances (c1 c2 : gmap string Ref) (key : string) : Prop :=
  forall r1 r2, c1 !! key = Some r1 -> c2 !! key = Some r2 -> r1 <> r2.

(** ** Stages of an exchange

    The conditions under which a run reaches a given point of the source,
    and the writes it has performed by then. *)

(** The writes of a GET (resp. POST) call that was answered. *)
Definition get_calls (clientKeypair : Keypair) (tomlObj : JsValue)
    (resp : Response) : list Write :=
  [ PushCall (mkNetworkCall
      (getAuthCall_request clientKeypair (prop tomlObj "WEB_AUTH_ENDPOINT")) None);
    AttachResponse resp ].

Definition post_calls (useJson : bool) (tomlObj : JsValue) (xdr : string)
    (resp : Response) : list Write :=
  [ PushCall (mkNetworkCall
      (postAuthCall_request useJson (prop tomlObj "WEB_AUTH_ENDPOINT") xdr) None);
    AttachResponse resp ].

(** Status 200 and [Content-Type] exactly [application/json]. *)
Definition response_acceptable (resp : Response) : Prop :=
  status resp = 200 /\ headers_get resp "Content-Type" = Some "application/json".

(** The [actual] diagnostic of a content-type mismatch: written when the
    header value is truthy. *)
Definition actual_content_type (header : option string) : list Write :=
  match header with
  | Some ct => if String.eqb ct "" then [] else [SetActual (JStr ct)]
  | None => []
  end.

(** What [result.actual] holds after a content-type mismatch. *)
Definition actual_after_content_type (header : option string)
    (before : option JsValue) : option JsValue :=
  match header with
  | Some ct => if String.eqb ct "" then before else Some (JStr ct)
  | None => before
  end.

Section Stages.

Variable fetch : Request -> Completion Response.
Variable fromXDR : JsValue -> JsValue -> Completion Decoded.
Variable sign : Transaction -> Keypair -> Completion Transaction.
Variable toXDR : Transaction -> string.
Variable decode : JsValue -> Completion JsValue.
Variable jwtSchema : JsValue.
Variable validate : JsValue -> JsValue -> list string.

(** Lines 135-155 passed: metadata and endpoint are present and the GET was
    answered by [resp]. *)
Definition get_answered (clientKeypair : Keypair) (tomlObj : JsValue)
    (resp : Response) : Prop :=
  truthy tomlObj = true
  /\ truthy (prop tomlObj "WEB_AUTH_ENDPOINT") = true
  /\ fetch (getAuthCall_request clientKeypair (prop tomlObj "WEB_AUTH_ENDPOINT"))
     = Normal resp.

(** Lines 156-175 passed as well: the response is acceptable and its body
    carries a truthy [transaction]. *)
Definition get_transaction (clientKeypair : Keypair) (tomlObj : JsValue)
    (resp : Response) (transaction : JsValue) : Prop :=
  get_answered clientKeypair tomlObj resp
  /\ response_acceptable resp
  /\ exists body, json resp = Normal body
       /\ get_prop body "transaction" = Normal transaction
       /\ truthy transaction = true.

(** Lines 212-238 passed: the challenge was fetched from [getResp], signed,
    and the POST was answered by [resp]. *)
Definition post_answered (clientKeypair : Keypair) (tomlObj : JsValue)
    (useJson : bool) (getResp : Response) (signed : Transaction)
    (resp : Response) : Prop :=
  exists challenge,
    getChallenge fetch fromXDR clientKeypair tomlObj
    = (get_calls clientKeypair tomlObj getResp, Normal (Some challenge))
    /\ sign challenge clientKeypair = Normal signed
    /\ fetch (postAuthCall_request useJson (prop tomlObj "WEB_AUTH_ENDPOINT")
              (toXDR signed))
       = Normal resp.

(** Lines 239-284 passed: the POST response is acceptable, carries a truthy
    [token], and the token decodes to an object that satisfies the schema. *)
Definition token_decoded (resp : Response) (token jwtContents : JsValue) : Prop :=
  response_acceptable resp
  /\ (exists body, json resp = Normal body /\ get_prop body "token" = Normal token)
  /\ truthy token = true
  /\ decode token = Normal jwtContents
  /\ truthy jwtContents = true
  /\ typeof_object jwtContents = true
  /\ validate jwtContents jwtSchema = [].

(** The ordered list of checks of the GET phase as the specification words
    it (metadata, endpoint, transport, status, content type, [transaction]
    field, decoding, transaction type, sequence number), written as a
    decision list: the key of the first check that is violated, [None] when
    all pass.  The list says nothing of a body that cannot be read; here such
    a body counts as one without a [transaction] field. *)
Definition first_violation (clientKeypair : Keypair) (tomlObj : JsValue)
    : option string :=
  if negb (truthy tomlObj) then Some "NO_TOML"
  else if negb (truthy (prop tomlObj "WEB_AUTH_ENDPOINT")) then
    Some "NO_WEB_AUTH_ENDPOINT"
  else
    match fetch (getAuthCall_request clientKeypair
                   (prop tomlObj "WEB_AUTH_ENDPOINT")) with
    | Thrown _ => Some "CONNECTION_ERROR"
    | Normal resp =>
        if negb (status resp =? 200) then Some "UNEXPECTED_STATUS_CODE"
        else if negb (bool_decide (headers_get resp "Content-Type"
                                   = Some "application/json")) then
          Some "BAD_CONTENT_TYPE"
        else
          let transaction :=
            match json resp with
            | Normal body => prop body "transaction"
            | Thrown _ => JUndefined
            end in
          if negb (truthy transaction) then Some "NO_TRANSACTION"
          else
            match fromXDR transaction (prop tomlObj "NETWORK_PASSPHRASE") with
            | Thrown _ => Some "DESERIALIZATION_FAILED"
            | Normal (IsFeeBump _) => Some "INVALID_TRANSACTION_TYPE"
            | Normal (IsTransaction tx) =>
                if negb (String.eqb (sequence tx) "0") then
                  Some "NONZERO_SEQUENCE_NUMBER"
                else None
            end
    end.

End Stages.

(** ** A concrete exchange

    One client, one anchor: the endpoint answers the GET with [getAnswer]
    and the POST with [postAnswer]; the codec recognises three envelopes. *)
Module Scenario.

Definition client : Keypair := mkKeypair "GCLIENT" (Some "SCLIENT").

Definition toml : JsValue :=
  JObj {[ "WEB_AUTH_ENDPOINT" := JStr "https://x/auth" ]}.

Definition jsonHeaders : gmap string string :=
  {[ "content-type" := "application/json" ]}.

Definition fetch (getAnswer postAnswer : Completion Response) (r : Request)
    : Completion Response :=
  if String.eqb (method r) "GET" then getAnswer else postAnswer.

Definition fromXDR (envelope _passphrase : JsValue) : Completion Decoded :=
  match envelope with
  | JStr "AAAA" => Normal (IsTransaction (mkTransaction "0" []))
  | JStr "BBBB" => Normal (IsTransaction (mkTransaction "1" []))
  | JStr "FFFF" => Normal (IsFeeBump (mkFeeBump (mkTransaction "0" []) "GFEE"))
  | _ => Thrown "XDR Read Error"
  end.

Definition sign (tx : Transaction) (kp : Keypair) : Completion Transaction :=
  match secretSeed kp with
  | Some _ => Normal (mkTransaction (sequence tx) (signatures tx ++ [publicKey kp]))
  | None => Thrown "cannot sign: no secret key available"
  end.

Definition toXDR (tx : Transaction) : string :=
  String.concat "," (sequence tx :: signatures tx).

Definition fromPublicKey (v : JsValue) : Completion Keypair :=
  match v with
  | JStr (String "G" rest) => Normal (mkKeypair (String "G" rest) None)
  | _ => Thrown "Invalid Stellar public key"
  end.

(** Two token payloads: one whose subject is a well-formed key of another
    account, one whose subject is no key at all. *)
Definition otherSubject : JsValue :=
  JObj {[ "sub" := JStr "GOTHER"; "iat" := JNum 1; "exp" := JNum 2 ]}.

Definition badSubject : JsValue :=
  JObj {[ "sub" := JStr "not a key"; "iat" := JNum 1; "exp" := JNum 2 ]}.

Definition decode (token : JsValue) : Completion JsValue :=
  match token with
  | JStr "other.sub" => Normal otherSubject
  | JStr "bad.sub" => Normal badSubject
  | _ => Normal JNull
  end.

Definition jwtSchema : JsValue := JObj ∅.

Definition validate (_instance _schema : JsValue) : list string := [].

(** Responses of the anchor. *)
Definition challengeResponse (envelope : string) : Response :=
  mkResponse 200 jsonHeaders (Normal (JObj {[ "transaction" := JStr envelope ]})).

Definition tokenResponse (token : string) : Response :=
  mkResponse 200 jsonHeaders (Normal (JObj {[ "token" := JStr token ]})).

Definition unparseable : Response :=
  mkResponse 200 jsonHeaders (Thrown "invalid json response body").

Definition notFound : Response :=
  mkResponse 404 jsonHeaders (Normal (JObj {[ "error" := JStr "not found" ]})).

Definition htmlPage : Response :=
  mkResponse 200 {[ "content-type" := "text/html" ]} (Thrown "invalid json response body").

Definition untyped : Response :=
  mkResponse 200 ∅ (Normal (JObj ∅)).

(** The challenge the anchor issues under envelope [AAAA], and that
    challenge signed by the client. *)
Definition issued : Transaction := mkTransaction "0" [].
Definition signed : Transaction := mkTransaction "0" ["GCLIENT"].

(** The two operations against an anchor that answers the GET with
    [getAnswer] and the POST with [postAnswer]. *)
Definition getRun (getAnswer : Response) (tomlObj : JsValue)
    : M (option Transaction) :=
  getChallenge (fetch (Normal getAnswer) (Thrown "unreachable")) fromXDR
    client tomlObj.

Definition postRun (getAnswer postAnswer : Response)
    : M (option JsValue) :=
  postChallenge (fetch (Normal getAnswer) (Normal postAnswer)) fromXDR sign
    toXDR fromPublicKey decode jwtSchema validate client toml false.

Definition emptyResult : Result := mkResult [] None None None.

(** The completed calls as they end up in [networkCalls]. *)
Definition getCall (resp : Response) : NetworkCall :=
  mkNetworkCall (getAuthCall_request client (prop toml "WEB_AUTH_ENDPOINT"))
    (Some resp).

Definition postCall (resp : Response) : NetworkCall :=
  mkNetworkCall
    (postAuthCall_request false (prop toml "WEB_AUTH_ENDPOINT") (toXDR signed))
    (Some resp).

End Scenario.

(** ** Further stages and edge cases *)

(** What the test of line 274 lets through: objects and arrays, the values
    that are truthy and whose [typeof] is "object". *)
Definition object_or_array (v : JsValue) : bool :=
  match v with
  | JArr _ | JObj _ => true
  | _ => false
  end.

Section PostStages.

Variable fetch : Request -> Completion Response.
Variable fromXDR : JsValue -> JsValue -> Completion Decoded.
Variable sign : Transaction -> Keypair -> Completion Transaction.
Variable toXDR : Transaction -> string.
Variable fromPublicKey : JsValue -> Completion Keypair.
Variable decode : JsValue -> Completion JsValue.
Variable jwtSchema : JsValue.
Variable validate : JsValue -> JsValue -> list string.

(** Line 212 returned a challenge, fetched in the call answered by
    [getResp]. *)
Definition get_fetched (clientKeypair : Keypair) (tomlObj : JsValue)
    (getResp : Response) (challenge : Transaction) : Prop :=
  getChallenge fetch fromXDR clientKeypair tomlObj
  = (get_calls clientKeypair tomlObj getResp, Normal (Some challenge)).

(** Lines 212-264 passed: the POST response is acceptable and its body
    carries a truthy [token]. *)
Definition post_token (clientKeypair : Keypair) (tomlObj : JsValue)
    (useJson : bool) (getResp : Response) (signed : Transaction)
    (resp : Response) (token : JsValue) : Prop :=
  post_answered fetch fromXDR sign toXDR clientKeypair tomlObj useJson
    getResp signed resp
  /\ response_acceptable resp
  /\ exists body, json resp = Normal body
       /\ get_prop body "token" = Normal token
       /\ truthy token = true.

(** The checks [postChallenge] makes once the challenge is signed, in source
    order (lines 231-290), as a decision list: the key of the first one that
    fails, [None] when the token is returned.  A body that cannot be read
    counts as one without a [token]. *)
Definition first_post_violation (postRequest : Request) : option string :=
  match fetch postRequest with
  | Thrown _ => Some "CONNECTION_ERROR"
  | Normal resp =>
      if negb (status resp =? 200) then Some "UNEXPECTED_STATUS_CODE"
      else if negb (bool_decide (headers_get resp "Content-Type"
                                 = Some "application/json")) then
        Some "BAD_CONTENT_TYPE"
      else
        let token :=
          match json resp with
          | Normal body => prop body "token"
          | Thrown _ => JUndefined
          end in
        if negb (truthy token) then Some "NO_TOKEN"
        else
          match decode token with
          | Thrown _ => Some "JWT_DECODE_FAILURE"
          | Normal jwtContents =>
              if negb (object_or_array jwtContents) then Some "JWT_NOT_JSON"
              else if negb (Nat.eqb (List.length (validate jwtContents jwtSchema)) 0)
              then Some "INVALID_JWT_SCHEMA"
              else
                match fromPublicKey (prop jwtContents "sub") with
                | Thrown _ => Some "INVALID_JWT_SUB"
                | Normal _ => None
                end
          end
  end.

End PostStages.

(** Further parties for the concrete exchange: a client that holds no secret
    key, metadata without an endpoint, an anchor whose answers cannot be
    decoded, and a token decoder and schema validator that reject. *)
Module Edge.

Definition verifier : Keypair := mkKeypair "GCLIENT" None.

Definition nullBody : Response := mkResponse 200 Scenario.jsonHeaders (Normal JNull).

Definition decode (token : JsValue) : Completion JsValue :=
  match token with
  | JStr "garbage" => Thrown "jwt malformed"
  | JStr "array" => Normal (JArr [])
  | JStr "text" => Normal (JStr "payload")
  | JStr "no.sub" => Normal (JObj {[ "iat" := JNum 1 ]})
  | _ => Scenario.decode token
  end.

Definition validate (instance _schema : JsValue) : list string :=
  match prop instance "sub" with
  | JStr _ => []
  | _ => ["instance requires property sub"; "instance requires property exp"]
  end.

(** [postChallenge] against an anchor answering [getAnswer] and
    [postAnswer], for a given client. *)
Definition postRun (clientKeypair : Keypair) (getAnswer : Response)
    (postAnswer : Completion Response) : M (option JsValue) :=
  postChallenge (Scenario.fetch (Normal getAnswer) postAnswer) Scenario.fromXDR
    Scenario.sign Scenario.toXDR Scenario.fromPublicKey decode
    Scenario.jwtSchema validate clientKeypair Scenario.toml false.

End Edge.

(** * Properties *)

(** ** Catalogs and [makeFailure] *)

Arguments makeFailure : simpl never.
Arguments headers_get : simpl never.
Arguments getAuthCall_request : simpl never.
Arguments postAuthCall_request : simpl never.

Lemma makeFailure_defined (catalog : gmap string Ref) (key : string)
    (args : Args) (r : Ref) (fm : Failure) :
  catalog !! key = Some r ->
  failureHeap !! r = Some fm ->
  exists f, makeFailure (catalog !! key) args = Normal f
            /\ definition f = r /\ failure_name f = name fm
            /\ message f = text fm args.
Proof.
  intros Hkey Hobj. unfold makeFailure. rewrite Hkey, Hobj.
  eexists. split; [reflexivity|]. cbn. auto.
Qed.

Lemma assign_failure_normal (mode : option Ref) (args : Args) (f : MaterializedFailure) :
  makeFailure mode args = Normal f ->
  assign_failure mode args = ([SetFailure f], Normal tt).
Proof. intros H. unfold assign_failure, lift. rewrite H. reflexivity. Qed.

Lemma assign_failure_cases (mode : option Ref) (args : Args) :
  (exists f, makeFailure mode args = Normal f
             /\ assign_failure mode args = ([SetFailure f], Normal tt))
  \/ (exists e, makeFailure mode args = Thrown e
                /\ assign_failure mode args = ([], Thrown e)).
Proof.
  unfold assign_failure, lift. destruct (makeFailure mode args) as [f|e].
  - left. exists f. split; reflexivity.
  - right. exists e. split; reflexivity.
Qed.

Lemma get_prop_truthy (v : JsValue) (k : string) :
  truthy v = true -> get_prop v k = Normal (prop v k).
Proof. destruct v; cbn; intros H; try discriminate; reflexivity. Qed.

(** The GET catalog binds its nine keys to the first nine objects; the POST
    catalog binds its own five keys to the next five and, through the
    spread, the nine GET keys to the objects of the GET catalog. *)
Lemma getChallengeFailureModes_eq :
  getChallengeFailureModes =
    list_to_map
      [ ("NO_TOML", 0%nat); ("NO_WEB_AUTH_ENDPOINT", 1%nat);
        ("CONNECTION_ERROR", 2%nat); ("UNEXPECTED_STATUS_CODE", 3%nat);
        ("BAD_CONTENT_TYPE", 4%nat); ("NO_TRANSACTION", 5%nat);
        ("DESERIALIZATION_FAILED", 6%nat); ("INVALID_TRANSACTION_TYPE", 7%nat);
        ("NONZERO_SEQUENCE_NUMBER", 8%nat) ].
Proof. reflexivity. Qed.

Lemma postChallengeFailureModes_eq :
  postChallengeFailureModes =
    list_to_map
      [ ("NO_TOKEN", 9%nat); ("JWT_DECODE_FAILURE", 10%nat);
        ("JWT_NOT_JSON", 11%nat); ("INVALID_JWT_SCHEMA", 12%nat);
        ("INVALID_JWT_SUB", 13%nat) ] ∪ getChallengeFailureModes.
Proof. reflexivity. Qed.

Lemma failureHeap_names :
  name <$> failureHeap =
    [ "no TOML file"; "no WEB_AUTH_ENDPOINT"; "connection error";
      "unexpected status code"; "bad content type";
      "missing 'transaction' field"; "transaction deserialization failed";
      "invalid transaction type"; "non-zero sequence number";
      "no token"; "JWT decode failure"; "JWT contents is not JSON";
      "invalid JWT content schema"; "invalid jwt 'sub' attribute" ].
Proof. reflexivity. Qed.

Lemma getChallengeFailureModes_lookup (key : string) (r : Ref) :
  getChallengeFailureModes !! key = Some r ->
  postChallengeFailureModes !! key = Some r.
Proof.
  intros H. rewrite postChallengeFailureModes_eq.
  apply lookup_union_Some_raw.
  destruct (list_to_map _ !! key) as [r'|] eqn:Hown; [|right; split; [reflexivity | exact H]].
  exfalso. apply elem_of_list_to_map_2, list_elem_of_In in Hown.
  cbn in Hown.
  repeat (destruct Hown as [Hown|Hown];
          [injection Hown as <- _; vm_compute in H; discriminate|]).
  exact Hown.
Qed.

(** C6, as stated, fails: the entry the POST catalog holds under
    [CONNECTION_ERROR] is not an independent instance, it is the very object
    of the GET catalog (the spread copies the reference). *)
Lemma connection_error_instance_shared :
  getChallengeFailureModes !! "CONNECTION_ERROR" = Some 2%nat
  /\ postChallengeFailureModes !! "CONNECTION_ERROR" = Some 2%nat
  /\ ~ independent_instances getChallengeFailureModes postChallengeFailureModes
        "CONNECTION_ERROR".
Proof.
  split; [reflexivity|]. split; [reflexivity|].
  intros H. apply (H 2%nat 2%nat); reflexivity.
Qed.

(** C6, amended: the POST catalog contains every key of the GET catalog,
    bound to the same failure object as in the GET catalog (shared, not
    copied), plus five keys of its own that the GET catalog lacks; no GET
    key is an independent instance, and a failure made from the POST catalog
    under a GET key is the failure made from the GET catalog. *)
Theorem postChallengeFailureModes_extends_get :
  getChallengeFailureModes ⊆ postChallengeFailureModes
  /\ dom postChallengeFailureModes
     = dom getChallengeFailureModes ∪ list_to_set postChallenge_own_keys
  /\ Forall (fun key => getChallengeFailureModes !! key = None
                        /\ is_Some (postChallengeFailureModes !! key))
       postChallenge_own_keys
  /\ size getChallengeFailureModes = 9%nat
  /\ size postChallengeFailureModes = 14%nat
  /\ Forall (fun key =>
       is_Some (getChallengeFailureModes !! key)
       /\ ~ independent_instances getChallengeFailureModes
             postChallengeFailureModes key) getChallenge_keys
  /\ forall key args,
       is_Some (getChallengeFailureModes !! key) ->
       makeFailure (postChallengeFailureModes !! key) args
       = makeFailure (getChallengeFailureModes !! key) args.
Proof.
  split; [|split; [|split; [|split; [|split; [|split]]]]].
  - apply map_subseteq_spec. intros key r. apply getChallengeFailureModes_lookup.
  - reflexivity.
  - repeat constructor; vm_compute; eauto.
  - reflexivity.
  - reflexivity.
  - unfold getChallenge_keys, independent_instances.
    repeat (constructor;
            [split; [vm_compute; eauto|];
             intros H; eapply H; [vm_compute; reflexivity | vm_compute; reflexivity | reflexivity] |]).
    constructor.
  - intros key args [r Hr].
    rewrite (getChallengeFailureModes_lookup _ _ Hr), Hr. reflexivity.
Qed.

(** Pushing a call and attaching its response leaves the completed call at
    the end of [networkCalls] and touches nothing else. *)
Lemma apply_writes_call (result : Result) (req : Request) (resp : Response)
    (ws : list Write) :
  apply_writes result (PushCall (mkNetworkCall req None) :: AttachResponse resp :: ws)
  = apply_writes
      (mkResult (networkCalls result ++ [mkNetworkCall req (Some resp)])
         (failure result) (expected result) (actual result))
      ws.
Proof.
  unfold apply_writes. cbn [foldl apply_write networkCalls failure expected actual].
  f_equal. f_equal.
  rewrite length_app, Nat.add_comm. cbn [List.length Nat.add Nat.pred].
  rewrite <- (Nat.add_0_r (List.length (networkCalls result))).
  rewrite alter_app_r. reflexivity.
Qed.

(** ** Symbolic execution of the two operations *)

Lemma content_type_check (ct : option string) :
  negb (truthy (nullable ct)) || strict_neq_string (nullable ct) "application/json"
  = negb (bool_decide (ct = Some "application/json")).
Proof.
  destruct ct as [s|]; [|reflexivity]. cbn [nullable from_option strict_neq_string truthy].
  destruct (String.eqb s "application/json") eqn:E.
  - apply String.eqb_eq in E. subst s. reflexivity.
  - apply String.eqb_neq in E. rewrite bool_decide_eq_false_2 by congruence.
    cbn. apply orb_true_r.
Qed.

(** Unfold the monad operations, nothing else. *)
Ltac mrun :=
  cbn [lift mbind M_bind mret M_ret emit Completion_bind Completion_ret
       negb orb andb app fst snd writes completion nullable from_option
       Z.eqb Pos.eqb String.eqb Ascii.eqb Bool.eqb].

(** Run [m] along the path the hypotheses describe. *)
Ltac forward :=
  repeat (progress
            (mrun; rewrite ?content_type_check;
             repeat match goal with H : _ = _ |- _ => rewrite H end;
             rewrite ?bool_decide_eq_true_2 by reflexivity;
             rewrite ?bool_decide_eq_false_2 by assumption)).

(** The materialized failure [makeFailure(catalog.key, args)], by its place
    in the heap. *)
Ltac failure_at catalog key args r f :=
  let Hf := fresh "Hf" in
  let Hdef := fresh "Hdef" in
  let Hname := fresh "Hname" in
  let Hassign := fresh "Hassign" in
  destruct (makeFailure_defined catalog key args r _ eq_refl eq_refl)
    as (f & Hf & Hdef & Hname & _);
  cbn [name] in Hname;
  pose proof (assign_failure_normal _ _ _ Hf) as Hassign.

(** The condition a run is waiting on: the scrutinee at the head of the
    term, through binds and boolean connectives. *)
Ltac stuck_in t :=
  lazymatch t with
  | match ?e with _ => _ end => stuck_in e
  | mbind _ ?m => stuck_in m
  | negb ?b => stuck_in b
  | orb ?a _ => stuck_in a
  | _ => t
  end.

(** One step of case analysis on run [m]. *)
Ltac step_run m :=
  let s := stuck_in m in
  lazymatch s with
  | (_, _) => fail "the run is a value"
  | assign_failure ?mode ?a =>
      destruct (assign_failure_cases mode a) as [(? & ? & ->)|(? & ? & ->)]
  | bool_decide _ => case_bool_decide
  | _ => destruct s eqn:?
  end.

(** Run [m] as far as the hypotheses decide it, splitting on the rest. *)
Ltac exec :=
  repeat (mrun; rewrite ?content_type_check;
          match goal with
          | |- context [@completion _ ?m] => step_run m
          | |- context [@writes _ ?m] => step_run m
          | |- context [@eq (M _) ?m _] => step_run m
          end);
  mrun.

Section Runs.

Variable fetch : Request -> Completion Response.
Variable fromXDR : JsValue -> JsValue -> Completion Decoded.
Variable sign : Transaction -> Keypair -> Completion Transaction.
Variable toXDR : Transaction -> string.
Variable fromPublicKey : JsValue -> Completion Keypair.
Variable decode : JsValue -> Completion JsValue.
Variable jwtSchema : JsValue.
Variable validate : JsValue -> JsValue -> list string.

Abbreviation GET := (getChallenge fetch fromXDR).
Abbreviation POST :=
  (postChallenge fetch fromXDR sign toXDR fromPublicKey decode jwtSchema validate).

(** What a successful [getChallenge] tells about its inputs: every check
    passed, and the only writes are the push of the GET call and the
    attachment of its response. *)
Lemma getChallenge_success_inv
    (clientKeypair : Keypair) (tomlObj : JsValue) (challenge : Transaction) :
  completion (GET clientKeypair tomlObj) = Normal (Some challenge) ->
  exists resp transaction,
    get_transaction fetch clientKeypair tomlObj resp transaction
    /\ fromXDR transaction (prop tomlObj "NETWORK_PASSPHRASE")
       = Normal (IsTransaction challenge)
    /\ sequence challenge = "0"
    /\ GET clientKeypair tomlObj
       = (get_calls clientKeypair tomlObj resp, Normal (Some challenge)).
Proof.
  unfold getChallenge, get_transaction, get_answered, response_acceptable, get_calls.
  destruct (truthy tomlObj) eqn:Htoml; cbn [negb];
    [|exec; discriminate].
  rewrite !(get_prop_truthy _ _ Htoml). mrun.
  destruct (truthy (prop tomlObj "WEB_AUTH_ENDPOINT")) eqn:Hendpoint; cbn [negb];
    [|exec; discriminate].
  exec; try discriminate.
  intros [= ->].
  match goal with H : (status _ =? 200) = true |- _ => apply Z.eqb_eq in H end.
  match goal with H : String.eqb _ _ = true |- _ => apply String.eqb_eq in H end.
  eauto 20.
Qed.

(** An answered GET whose status is not 200. *)
Lemma getChallenge_unexpected_status
    (clientKeypair : Keypair) (tomlObj : JsValue) (resp : Response) :
  get_answered fetch clientKeypair tomlObj resp ->
  status resp <> 200 ->
  exists f,
    makeFailure (getChallengeFailureModes !! "UNEXPECTED_STATUS_CODE") ∅ = Normal f
    /\ failure_name f = "unexpected status code"
    /\ GET clientKeypair tomlObj
       = (get_calls clientKeypair tomlObj resp
            ++ [SetFailure f; SetExpected (JNum 200); SetActual (JNum (status resp))],
          Normal None).
Proof.
  intros (Htoml & Hendpoint & Hfetch) Hstatus.
  apply Z.eqb_neq in Hstatus.
  failure_at getChallengeFailureModes "UNEXPECTED_STATUS_CODE" (∅ : Args) 3%nat f.
  exists f. split; [assumption|]. split; [assumption|].
  unfold getChallenge, get_calls.
  rewrite !(get_prop_truthy _ _ Htoml). forward. reflexivity.
Qed.

(** An answered GET with status 200 whose [Content-Type] is missing or is
    not exactly [application/json]. *)
Lemma getChallenge_bad_content_type
    (clientKeypair : Keypair) (tomlObj : JsValue) (resp : Response) :
  get_answered fetch clientKeypair tomlObj resp ->
  status resp = 200 ->
  headers_get resp "Content-Type" <> Some "application/json" ->
  exists f,
    makeFailure (getChallengeFailureModes !! "BAD_CONTENT_TYPE") ∅ = Normal f
    /\ failure_name f = "bad content type"
    /\ GET clientKeypair tomlObj
       = (get_calls clientKeypair tomlObj resp
            ++ SetFailure f :: SetExpected (JStr "application/json")
               :: actual_content_type (headers_get resp "Content-Type"),
          Normal None).
Proof.
  intros (Htoml & Hendpoint & Hfetch) Hstatus Hct.
  failure_at getChallengeFailureModes "BAD_CONTENT_TYPE" (∅ : Args) 4%nat f.
  exists f. split; [assumption|]. split; [assumption|].
  unfold getChallenge, get_calls, actual_content_type.
  rewrite !(get_prop_truthy _ _ Htoml). forward.
  destruct (headers_get resp "Content-Type") as [ct|]; [|reflexivity].
  cbn [nullable from_option truthy].
  destruct (String.eqb ct "") eqn:Hempty; reflexivity.
Qed.

(** An acceptable GET response whose body does not parse, or parses to
    [null]: nothing catches the exception. *)
Lemma getChallenge_body_rejected
    (clientKeypair : Keypair) (tomlObj : JsValue) (resp : Response) (e : string) :
  get_answered fetch clientKeypair tomlObj resp ->
  response_acceptable resp ->
  json resp = Thrown e ->
  GET clientKeypair tomlObj = (get_calls clientKeypair tomlObj resp, Thrown e).
Proof.
  intros (Htoml & Hendpoint & Hfetch) (Hstatus & Hct) Hjson.
  unfold getChallenge, get_calls.
  rewrite !(get_prop_truthy _ _ Htoml). forward. reflexivity.
Qed.

Lemma getChallenge_body_null
    (clientKeypair : Keypair) (tomlObj : JsValue) (resp : Response) :
  get_answered fetch clientKeypair tomlObj resp ->
  response_acceptable resp ->
  json resp = Normal JNull ->
  GET clientKeypair tomlObj
  = (get_calls clientKeypair tomlObj resp,
     Thrown "TypeError: Cannot read properties of null").
Proof.
  intros (Htoml & Hendpoint & Hfetch) (Hstatus & Hct) Hjson.
  unfold getChallenge, get_calls.
  rewrite !(get_prop_truthy _ _ Htoml). forward. reflexivity.
Qed.

(** An acceptable GET response whose body has no truthy [transaction]. *)
Lemma getChallenge_no_transaction
    (clientKeypair : Keypair) (tomlObj : JsValue) (resp : Response)
    (body transaction : JsValue) :
  get_answered fetch clientKeypair tomlObj resp ->
  response_acceptable resp ->
  json resp = Normal body ->
  get_prop body "transaction" = Normal transaction ->
  truthy transaction = false ->
  exists f,
    makeFailure (getChallengeFailureModes !! "NO_TRANSACTION") ∅ = Normal f
    /\ failure_name f = "missing 'transaction' field"
    /\ GET clientKeypair tomlObj
       = (get_calls clientKeypair tomlObj resp ++ [SetFailure f], Normal None).
Proof.
  intros (Htoml & Hendpoint & Hfetch) (Hstatus & Hct) Hjson Hfield Hfalsy.
  failure_at getChallengeFailureModes "NO_TRANSACTION" (∅ : Args) 5%nat f.
  exists f. split; [assumption|]. split; [assumption|].
  unfold getChallenge, get_calls.
  rewrite !(get_prop_truthy _ _ Htoml). forward. reflexivity.
Qed.

(** A decoded ordinary transaction: accepted when its sequence is the
    string "0", refused otherwise. *)
Lemma getChallenge_sequence_zero
    (clientKeypair : Keypair) (tomlObj : JsValue) (resp : Response)
    (transaction : JsValue) (tx : Transaction) :
  get_transaction fetch clientKeypair tomlObj resp transaction ->
  fromXDR transaction (prop tomlObj "NETWORK_PASSPHRASE") = Normal (IsTransaction tx) ->
  sequence tx = "0" ->
  GET clientKeypair tomlObj
  = (get_calls clientKeypair tomlObj resp, Normal (Some tx)).
Proof.
  intros ((Htoml & Hendpoint & Hfetch) & (Hstatus & Hct) & body & Hjson & Hfield & Htruthy)
    Hdecoded Hseq.
  unfold getChallenge, get_calls.
  rewrite !(get_prop_truthy _ _ Htoml). forward. reflexivity.
Qed.

Lemma getChallenge_sequence_nonzero
    (clientKeypair : Keypair) (tomlObj : JsValue) (resp : Response)
    (transaction : JsValue) (tx : Transaction) :
  get_transaction fetch clientKeypair tomlObj resp transaction ->
  fromXDR transaction (prop tomlObj "NETWORK_PASSPHRASE") = Normal (IsTransaction tx) ->
  sequence tx <> "0" ->
  exists f,
    makeFailure (getChallengeFailureModes !! "NONZERO_SEQUENCE_NUMBER") ∅ = Normal f
    /\ failure_name f = "non-zero sequence number"
    /\ GET clientKeypair tomlObj
       = (get_calls clientKeypair tomlObj resp ++ [SetFailure f], Normal None).
Proof.
  intros ((Htoml & Hendpoint & Hfetch) & (Hstatus & Hct) & body & Hjson & Hfield & Htruthy)
    Hdecoded Hseq.
  apply String.eqb_neq in Hseq.
  failure_at getChallengeFailureModes "NONZERO_SEQUENCE_NUMBER" (∅ : Args) 8%nat f.
  exists f. split; [assumption|]. split; [assumption|].
  unfold getChallenge, get_calls.
  rewrite !(get_prop_truthy _ _ Htoml). forward. reflexivity.
Qed.

(** *** The POST phase *)

Lemma post_answered_metadata
    (clientKeypair : Keypair) (tomlObj : JsValue) (useJson : bool)
    (getResp : Response) (signed : Transaction) (resp : Response) :
  post_answered fetch fromXDR sign toXDR clientKeypair tomlObj useJson getResp signed resp ->
  truthy tomlObj = true /\ truthy (prop tomlObj "WEB_AUTH_ENDPOINT") = true.
Proof.
  intros (challenge & Hget & _).
  destruct (getChallenge_success_inv clientKeypair tomlObj challenge)
    as (r & t & ((Htoml & Hendpoint & _) & _) & _).
  - rewrite Hget. reflexivity.
  - split; assumption.
Qed.

(** Enter [postChallenge] along an answered POST. *)
Ltac forward_post H :=
  let Htoml := fresh "Htoml" in
  let Hendpoint := fresh "Hendpoint" in
  let challenge := fresh "challenge" in
  let Hget := fresh "Hget" in
  let Hsign := fresh "Hsign" in
  let Hfetch := fresh "Hfetch" in
  destruct (post_answered_metadata _ _ _ _ _ _ H) as (Htoml & Hendpoint);
  destruct H as (challenge & Hget & Hsign & Hfetch);
  unfold postChallenge, get_calls, post_calls;
  unfold get_calls in Hget;
  rewrite Hget; mrun;
  rewrite !(get_prop_truthy _ _ Htoml);
  forward.

Lemma postChallenge_unexpected_status
    (clientKeypair : Keypair) (tomlObj : JsValue) (useJson : bool)
    (getResp : Response) (signed : Transaction) (resp : Response) :
  post_answered fetch fromXDR sign toXDR clientKeypair tomlObj useJson getResp signed resp ->
  status resp <> 200 ->
  exists f,
    makeFailure (postChallengeFailureModes !! "UNEXPECTED_STATUS_CODE") ∅ = Normal f
    /\ failure_name f = "unexpected status code"
    /\ POST clientKeypair tomlObj useJson
       = (get_calls clientKeypair tomlObj getResp
            ++ post_calls useJson tomlObj (toXDR signed) resp
            ++ [SetFailure f; SetExpected (JNum 200); SetActual (JNum (status resp))],
          Normal None).
Proof.
  intros Hpost Hstatus. apply Z.eqb_neq in Hstatus.
  failure_at postChallengeFailureModes "UNEXPECTED_STATUS_CODE" (∅ : Args) 3%nat f.
  exists f. split; [assumption|]. split; [assumption|].
  forward_post Hpost. reflexivity.
Qed.

Lemma postChallenge_bad_content_type
    (clientKeypair : Keypair) (tomlObj : JsValue) (useJson : bool)
    (getResp : Response) (signed : Transaction) (resp : Response) :
  post_answered fetch fromXDR sign toXDR clientKeypair tomlObj useJson getResp signed resp ->
  status resp = 200 ->
  headers_get resp "Content-Type" <> Some "application/json" ->
  exists f,
    makeFailure (postChallengeFailureModes !! "BAD_CONTENT_TYPE") ∅ = Normal f
    /\ failure_name f = "bad content type"
    /\ POST clientKeypair tomlObj useJson
       = (get_calls clientKeypair tomlObj getResp
            ++ post_calls useJson tomlObj (toXDR signed) resp
            ++ SetFailure f :: SetExpected (JStr "application/json")
               :: actual_content_type (headers_get resp "Content-Type"),
          Normal None).
Proof.
  intros Hpost Hstatus Hct.
  failure_at postChallengeFailureModes "BAD_CONTENT_TYPE" (∅ : Args) 4%nat f.
  exists f. split; [assumption|]. split; [assumption|].
  forward_post Hpost. unfold actual_content_type.
  destruct (headers_get resp "Content-Type") as [ct|]; [|reflexivity].
  cbn [nullable from_option truthy].
  destruct (String.eqb ct "") eqn:Hempty; reflexivity.
Qed.

(** An acceptable POST response whose body has no truthy [token]. *)
Lemma postChallenge_no_token
    (clientKeypair : Keypair) (tomlObj : JsValue) (useJson : bool)
    (getResp : Response) (signed : Transaction) (resp : Response)
    (body token : JsValue) :
  post_answered fetch fromXDR sign toXDR clientKeypair tomlObj useJson getResp signed resp ->
  response_acceptable resp ->
  json resp = Normal body ->
  get_prop body "token" = Normal token ->
  truthy token = false ->
  exists f,
    makeFailure (postChallengeFailureModes !! "NO_TOKEN") ∅ = Normal f
    /\ failure_name f = "no token"
    /\ POST clientKeypair tomlObj useJson
       = (get_calls clientKeypair tomlObj getResp
            ++ post_calls useJson tomlObj (toXDR signed) resp
            ++ [SetFailure f],
          Normal None).
Proof.
  intros Hpost (Hstatus & Hct) Hjson Hfield Hfalsy.
  failure_at postChallengeFailureModes "NO_TOKEN" (∅ : Args) 9%nat f.
  exists f. split; [assumption|]. split; [assumption|].
  forward_post Hpost. reflexivity.
Qed.

(** The last check of [postChallenge]: [Keypair.fromPublicKey(jwtContents.sub)]. *)
Lemma postChallenge_sub_rejected
    (clientKeypair : Keypair) (tomlObj : JsValue) (useJson : bool)
    (getResp : Response) (signed : Transaction) (resp : Response)
    (token jwtContents : JsValue) (e : string) :
  post_answered fetch fromXDR sign toXDR clientKeypair tomlObj useJson getResp signed resp ->
  token_decoded decode jwtSchema validate resp token jwtContents ->
  fromPublicKey (prop jwtContents "sub") = Thrown e ->
  exists f,
    makeFailure (postChallengeFailureModes !! "INVALID_JWT_SUB") ∅ = Normal f
    /\ failure_name f = "invalid jwt 'sub' attribute"
    /\ POST clientKeypair tomlObj useJson
       = (get_calls clientKeypair tomlObj getResp
            ++ post_calls useJson tomlObj (toXDR signed) resp
            ++ [SetFailure f],
          Normal None).
Proof.
  intros Hpost ((Hstatus & Hct) & (body & Hjson & Hfield) & Htoken & Hdecode
                & Hjwt & Hobject & Hvalid) Hsub.
  failure_at postChallengeFailureModes "INVALID_JWT_SUB" (∅ : Args) 13%nat f.
  exists f. split; [assumption|]. split; [assumption|].
  forward_post Hpost.
  rewrite !(get_prop_truthy _ _ Hjwt). forward. reflexivity.
Qed.

Lemma postChallenge_sub_accepted
    (clientKeypair : Keypair) (tomlObj : JsValue) (useJson : bool)
    (getResp : Response) (signed : Transaction) (resp : Response)
    (token jwtContents : JsValue) (subject : Keypair) :
  post_answered fetch fromXDR sign toXDR clientKeypair tomlObj useJson getResp signed resp ->
  token_decoded decode jwtSchema validate resp token jwtContents ->
  fromPublicKey (prop jwtContents "sub") = Normal subject ->
  POST clientKeypair tomlObj useJson
  = (get_calls clientKeypair tomlObj getResp
       ++ post_calls useJson tomlObj (toXDR signed) resp,
     Normal (Some token)).
Proof.
  intros Hpost ((Hstatus & Hct) & (body & Hjson & Hfield) & Htoken & Hdecode
                & Hjwt & Hobject & Hvalid) Hsub.
  forward_post Hpost.
  rewrite !(get_prop_truthy _ _ Hjwt). forward. reflexivity.
Qed.

(** *** Every run of [getChallenge] *)

(** On every path the failure is assigned at most once, nothing is pushed
    after the assignment, at most one call is pushed, and a run that returns
    a challenge has assigned no failure. *)
Lemma getChallenge_failure_terminal (clientKeypair : Keypair) (tomlObj : JsValue) :
  let ws := writes (GET clientKeypair tomlObj) in
  (failure_assignments ws <= 1)%nat
  /\ pushes (after_first_failure ws) = 0%nat
  /\ (pushes ws <= 1)%nat.
Proof.
  unfold getChallenge. exec; cbn; repeat split; lia.
Qed.

(** *** Every run of [postChallenge] *)

(** The failure a leaf of the case analysis has assigned, by name. *)
Ltac name_failures :=
  repeat match goal with
  | H : makeFailure (?cat !! ?key) ?args = Normal ?f |- _ =>
      let o := eval vm_compute in (cat !! key) in
      lazymatch o with
      | Some ?r =>
          let f' := fresh "f" in
          let H' := fresh "H" in
          let Hn := fresh "Hname" in
          destruct (makeFailure_defined cat key args r _ eq_refl eq_refl)
            as (f' & H' & _ & Hn & _);
          rewrite H in H'; injection H' as <-; cbn [name] in Hn; clear H
      end
  end.

Lemma postChallenge_success_inv
    (clientKeypair : Keypair) (tomlObj : JsValue) (useJson : bool) (token : JsValue) :
  completion (POST clientKeypair tomlObj useJson) = Normal (Some token) ->
  exists getResp signed resp,
    post_answered fetch fromXDR sign toXDR clientKeypair tomlObj useJson getResp signed resp
    /\ POST clientKeypair tomlObj useJson
       = (get_calls clientKeypair tomlObj getResp
            ++ post_calls useJson tomlObj (toXDR signed) resp,
          Normal (Some token)).
Proof.
  unfold postChallenge, post_answered.
  destruct (GET clientKeypair tomlObj) as [ws [[challenge|]|e]] eqn:Hget;
    mrun; try discriminate.
  destruct (getChallenge_success_inv clientKeypair tomlObj challenge)
    as (getResp & t & ((Htoml & _) & _) & _ & _ & Hrun);
    [rewrite Hget; reflexivity|].
  rewrite Hget in Hrun. injection Hrun as ->.
  rewrite !(get_prop_truthy _ _ Htoml).
  exec; try discriminate.
  intros [= ->]. do 3 eexists. split; [|reflexivity]. eauto.
Qed.

Lemma postChallenge_failure_terminal
    (clientKeypair : Keypair) (tomlObj : JsValue) (useJson : bool) :
  let ws := writes (POST clientKeypair tomlObj useJson) in
  (failure_assignments ws <= 1)%nat
  /\ pushes (after_first_failure ws) = 0%nat
  /\ (pushes ws <= 2)%nat.
Proof.
  pose proof (getChallenge_failure_terminal clientKeypair tomlObj) as Hterminal.
  unfold postChallenge.
  destruct (GET clientKeypair tomlObj) as [ws [[challenge|]|e]] eqn:Hget.
  - destruct (getChallenge_success_inv clientKeypair tomlObj challenge)
      as (getResp & t & _ & _ & _ & Hrun); [rewrite Hget; reflexivity|].
    rewrite Hget in Hrun. injection Hrun as ->. clear Hterminal.
    unfold get_calls. exec; cbn; repeat split; repeat constructor.
  - mrun. rewrite app_nil_r.
    cbn [writes fst] in Hterminal. destruct Hterminal as (H1 & H2 & H3).
    split; [exact H1|]. split; [exact H2|]. clear -H3. lia.
  - mrun.
    cbn [writes fst] in Hterminal. destruct Hterminal as (H1 & H2 & H3).
    split; [exact H1|]. split; [exact H2|]. clear -H3. lia.
Qed.

Lemma postChallenge_failures_after_fetch
    (clientKeypair : Keypair) (tomlObj : JsValue) (useJson : bool)
    (challenge : Transaction) (f : MaterializedFailure) :
  completion (GET clientKeypair tomlObj) = Normal (Some challenge) ->
  In (SetFailure f) (writes (POST clientKeypair tomlObj useJson)) ->
  In (failure_name f)
    [ "connection error"; "unexpected status code"; "bad content type";
      "no token"; "JWT decode failure"; "JWT contents is not JSON";
      "invalid JWT content schema"; "invalid jwt 'sub' attribute" ].
Proof.
  intros Hsuccess.
  destruct (getChallenge_success_inv clientKeypair tomlObj challenge Hsuccess)
    as (getResp & t & ((Htoml & _) & _) & _ & _ & Hrun).
  unfold postChallenge. rewrite Hrun. unfold get_calls. mrun.
  rewrite !(get_prop_truthy _ _ Htoml).
  exec; name_failures; intros Hin; cbn in Hin;
    repeat (destruct Hin as [Hin|Hin]; try discriminate Hin);
    try contradiction;
    injection Hin as <-;
    match goal with H : failure_name _ = _ |- _ => rewrite H end;
    cbn; tauto.
Qed.

(** The checks of [getChallenge] are made in the listed order: a run that
    completes without an exception has assigned exactly the failure of the
    first violated check, or none when every check passes. *)
Lemma getChallenge_checks_in_order (clientKeypair : Keypair) (tomlObj : JsValue) :
  match completion (GET clientKeypair tomlObj) with
  | Thrown _ => True
  | Normal None =>
      exists key args f,
        first_violation fetch fromXDR clientKeypair tomlObj = Some key
        /\ makeFailure (getChallengeFailureModes !! key) args = Normal f
        /\ filter is_SetFailure (writes (GET clientKeypair tomlObj)) = [SetFailure f]
  | Normal (Some challenge) =>
      first_violation fetch fromXDR clientKeypair tomlObj = None
      /\ filter is_SetFailure (writes (GET clientKeypair tomlObj)) = []
  end.
Proof.
  unfold getChallenge, first_violation.
  destruct (truthy tomlObj) eqn:Htoml; cbn [negb].
  2: { exec; [|exact I]. do 3 eexists. split; [reflexivity|]. split; [eassumption|reflexivity]. }
  rewrite !(get_prop_truthy _ _ Htoml). mrun.
  exec; try exact I.
  all: repeat match goal with
       | H : get_prop ?b ?k = Normal ?v |- context [prop ?b ?k] =>
           replace (prop b k) with v by (unfold prop; rewrite H; reflexivity)
       end.
  all: repeat match goal with H : _ = _ |- _ => rewrite H end; cbn [negb].
  all: first [ split; reflexivity
             | do 3 eexists; split; [reflexivity|]; split; [eassumption|reflexivity] ].
Qed.


(** *** The claims *)

(** C1: the checks are made in the listed order (see
    [getChallenge_checks_in_order]), but not every exceptional condition is
    turned into a failure: when an acceptable GET response carries a body
    that [json()] rejects, [getChallenge] completes by throwing that very
    exception, with no failure assigned, so [result.failure] is left as the
    caller passed it. *)
Theorem getChallenge_exception_escapes
    (clientKeypair : Keypair) (tomlObj : JsValue) (resp : Response) (e : string) :
  get_answered fetch clientKeypair tomlObj resp ->
  response_acceptable resp ->
  json resp = Thrown e ->
  completion (GET clientKeypair tomlObj) = Thrown e
  /\ failure_assignments (writes (GET clientKeypair tomlObj)) = 0%nat
  /\ forall result,
       failure (run (GET clientKeypair tomlObj) result).1 = failure result.
Proof.
  intros Hanswered Hacceptable Hjson.
  rewrite (getChallenge_body_rejected _ _ _ _ Hanswered Hacceptable Hjson).
  split; [reflexivity|]. split; [reflexivity|].
  intros result. unfold run, get_calls. cbn [writes completion fst snd].
  rewrite apply_writes_call. reflexivity.
Qed.

(** C2: a run of [postChallenge] that returns a token has pushed exactly two
    calls, the GET request and then the POST request, each completed with
    its response, and has not assigned [result.failure]. *)
Theorem postChallenge_success_two_calls
    (clientKeypair : Keypair) (tomlObj : JsValue) (useJson : bool) (token : JsValue) :
  completion (POST clientKeypair tomlObj useJson) = Normal (Some token) ->
  exists getResp signed postResp,
    let getRequest :=
      getAuthCall_request clientKeypair (prop tomlObj "WEB_AUTH_ENDPOINT") in
    let postRequest :=
      postAuthCall_request useJson (prop tomlObj "WEB_AUTH_ENDPOINT") (toXDR signed) in
    writes (POST clientKeypair tomlObj useJson)
    = [ PushCall (mkNetworkCall getRequest None); AttachResponse getResp;
        PushCall (mkNetworkCall postRequest None); AttachResponse postResp ]
    /\ method getRequest = "GET"
    /\ method postRequest = "POST"
    /\ pushes (writes (POST clientKeypair tomlObj useJson)) = 2%nat
    /\ failure_assignments (writes (POST clientKeypair tomlObj useJson)) = 0%nat
    /\ forall result,
         let result' := (run (POST clientKeypair tomlObj useJson) result).1 in
         networkCalls result'
         = networkCalls result
             ++ [ mkNetworkCall getRequest (Some getResp);
                  mkNetworkCall postRequest (Some postResp) ]
         /\ failure result' = failure result.
Proof.
  intros Hsuccess.
  destruct (postChallenge_success_inv _ _ _ _ Hsuccess)
    as (getResp & signed & postResp & _ & Hrun).
  exists getResp, signed, postResp. rewrite Hrun.
  unfold get_calls, post_calls. cbn [writes completion fst snd app].
  repeat split.
  - destruct useJson; reflexivity.
  - unfold run. cbn [writes fst]. rewrite !apply_writes_call.
    cbn [apply_writes foldl networkCalls]. rewrite <- app_assoc. reflexivity.
Qed.

(** C3: in every run of [getChallenge] and of [postChallenge],
    [result.failure] is assigned at most once, and no call is pushed after
    the assignment. *)
Theorem failure_assigned_once_and_last
    (clientKeypair : Keypair) (tomlObj : JsValue) (useJson : bool) :
  ((failure_assignments (writes (GET clientKeypair tomlObj)) <= 1)%nat
   /\ pushes (after_first_failure (writes (GET clientKeypair tomlObj))) = 0%nat)
  /\ ((failure_assignments (writes (POST clientKeypair tomlObj useJson)) <= 1)%nat
      /\ pushes (after_first_failure (writes (POST clientKeypair tomlObj useJson)))
         = 0%nat).
Proof.
  destruct (getChallenge_failure_terminal clientKeypair tomlObj) as (Hg1 & Hg2 & _).
  destruct (postChallenge_failure_terminal clientKeypair tomlObj useJson)
    as (Hp1 & Hp2 & _).
  repeat split; assumption.
Qed.

(** C4: a decoded ordinary transaction is accepted exactly when its
    [sequence] is the string "0"; any other value, whether falsy or not,
    yields the NONZERO_SEQUENCE_NUMBER failure. *)
Theorem getChallenge_sequence_exactly_zero
    (clientKeypair : Keypair) (tomlObj : JsValue) (resp : Response)
    (transaction : JsValue) (tx : Transaction) :
  get_transaction fetch clientKeypair tomlObj resp transaction ->
  fromXDR transaction (prop tomlObj "NETWORK_PASSPHRASE") = Normal (IsTransaction tx) ->
  (sequence tx = "0" ->
     GET clientKeypair tomlObj
     = (get_calls clientKeypair tomlObj resp, Normal (Some tx)))
  /\ (sequence tx <> "0" ->
        exists f,
          makeFailure (getChallengeFailureModes !! "NONZERO_SEQUENCE_NUMBER") ∅
          = Normal f
          /\ failure_name f = "non-zero sequence number"
          /\ GET clientKeypair tomlObj
             = (get_calls clientKeypair tomlObj resp ++ [SetFailure f],
                Normal None))
  /\ (completion (GET clientKeypair tomlObj) = Normal (Some tx)
      <-> sequence tx = "0").
Proof.
  intros Hreached Hdecoded.
  split; [|split].
  - intros Hzero.
    exact (getChallenge_sequence_zero _ _ _ _ _ Hreached Hdecoded Hzero).
  - intros Hnonzero.
    exact (getChallenge_sequence_nonzero _ _ _ _ _ Hreached Hdecoded Hnonzero).
  - split.
    + intros Hsuccess.
      destruct (getChallenge_success_inv _ _ _ Hsuccess) as (_ & _ & _ & _ & Hzero & _).
      exact Hzero.
    + intros Hzero.
      rewrite (getChallenge_sequence_zero _ _ _ _ _ Hreached Hdecoded Hzero).
      reflexivity.
Qed.

(** C5: in both phases a status other than 200 assigns the
    UNEXPECTED_STATUS_CODE failure with [expected] 200 and [actual] the
    observed status; a [Content-Type] that is missing or not exactly
    [application/json] assigns the BAD_CONTENT_TYPE failure with [expected]
    "application/json", and [actual] is written only from a header that is
    present (and non-empty): with no header it keeps the value it had. *)
Theorem mismatch_diagnostics
    (clientKeypair : Keypair) (tomlObj : JsValue) (useJson : bool) :
  (forall resp,
     get_answered fetch clientKeypair tomlObj resp ->
     let getCall :=
       mkNetworkCall
         (getAuthCall_request clientKeypair (prop tomlObj "WEB_AUTH_ENDPOINT"))
         (Some resp) in
     (status resp <> 200 ->
        exists f,
          makeFailure (getChallengeFailureModes !! "UNEXPECTED_STATUS_CODE") ∅
          = Normal f
          /\ failure_name f = "unexpected status code"
          /\ forall result,
               run (GET clientKeypair tomlObj) result
               = (mkResult (networkCalls result ++ [getCall]) (Some f)
                    (Some (JNum 200)) (Some (JNum (status resp))),
                  Normal None))
     /\ (status resp = 200 ->
         headers_get resp "Content-Type" <> Some "application/json" ->
         exists f,
           makeFailure (getChallengeFailureModes !! "BAD_CONTENT_TYPE") ∅
           = Normal f
           /\ failure_name f = "bad content type"
           /\ forall result,
                run (GET clientKeypair tomlObj) result
                = (mkResult (networkCalls result ++ [getCall]) (Some f)
                     (Some (JStr "application/json"))
                     (actual_after_content_type
                        (headers_get resp "Content-Type") (actual result)),
                   Normal None)))
  /\ (forall getResp signed resp,
        post_answered fetch fromXDR sign toXDR clientKeypair tomlObj useJson
          getResp signed resp ->
        let calls :=
          [ mkNetworkCall
              (getAuthCall_request clientKeypair (prop tomlObj "WEB_AUTH_ENDPOINT"))
              (Some getResp);
            mkNetworkCall
              (postAuthCall_request useJson (prop tomlObj "WEB_AUTH_ENDPOINT")
                 (toXDR signed))
              (Some resp) ] in
        (status resp <> 200 ->
           exists f,
             makeFailure (postChallengeFailureModes !! "UNEXPECTED_STATUS_CODE") ∅
             = Normal f
             /\ failure_name f = "unexpected status code"
             /\ forall result,
                  run (POST clientKeypair tomlObj useJson) result
                  = (mkResult (networkCalls result ++ calls) (Some f)
                       (Some (JNum 200)) (Some (JNum (status resp))),
                     Normal None))
        /\ (status resp = 200 ->
            headers_get resp "Content-Type" <> Some "application/json" ->
            exists f,
              makeFailure (postChallengeFailureModes !! "BAD_CONTENT_TYPE") ∅
              = Normal f
              /\ failure_name f = "bad content type"
              /\ forall result,
                   run (POST clientKeypair tomlObj useJson) result
                   = (mkResult (networkCalls result ++ calls) (Some f)
                        (Some (JStr "application/json"))
                        (actual_after_content_type
                           (headers_get resp "Content-Type") (actual result)),
                      Normal None))).
Proof.
  split.
  - intros resp Hanswered getCall. split.
    + intros Hstatus.
      destruct (getChallenge_unexpected_status _ _ _ Hanswered Hstatus)
        as (f & Hf & Hname & Hrun).
      exists f. split; [exact Hf|]. split; [exact Hname|].
      intros result. unfold run. rewrite Hrun. unfold get_calls.
      cbn [writes completion fst snd app]. rewrite apply_writes_call. reflexivity.
    + intros Hstatus Hct.
      destruct (getChallenge_bad_content_type _ _ _ Hanswered Hstatus Hct)
        as (f & Hf & Hname & Hrun).
      exists f. split; [exact Hf|]. split; [exact Hname|].
      intros result. unfold run. rewrite Hrun. unfold get_calls.
      cbn [writes completion fst snd app]. rewrite apply_writes_call.
      unfold actual_content_type, actual_after_content_type.
      destruct (headers_get resp "Content-Type") as [ct|]; [|reflexivity].
      destruct (String.eqb ct ""); reflexivity.
  - intros getResp signed resp Hanswered calls. split.
    + intros Hstatus.
      destruct (postChallenge_unexpected_status _ _ _ _ _ _ Hanswered Hstatus)
        as (f & Hf & Hname & Hrun).
      exists f. split; [exact Hf|]. split; [exact Hname|].
      intros result. unfold run. rewrite Hrun. unfold get_calls, post_calls, calls.
      cbn [writes completion fst snd app]. rewrite !apply_writes_call.
      cbn [networkCalls failure expected actual]. rewrite <- app_assoc. reflexivity.
    + intros Hstatus Hct.
      destruct (postChallenge_bad_content_type _ _ _ _ _ _ Hanswered Hstatus Hct)
        as (f & Hf & Hname & Hrun).
      exists f. split; [exact Hf|]. split; [exact Hname|].
      intros result. unfold run. rewrite Hrun. unfold get_calls, post_calls, calls.
      cbn [writes completion fst snd app]. rewrite !apply_writes_call.
      cbn [networkCalls failure expected actual]. rewrite <- app_assoc.
      unfold actual_content_type, actual_after_content_type.
      destruct (headers_get resp "Content-Type") as [ct|]; [|reflexivity].
      destruct (String.eqb ct ""); reflexivity.
Qed.

(** C7: once the token has been decoded and has passed the schema, the only
    thing examined is whether [Keypair.fromPublicKey(sub)] throws: if it
    does, the INVALID_JWT_SUB failure is assigned; if it returns a keypair,
    whichever it is, [postChallenge] returns the token of the response body
    as it stands. *)
Theorem token_subject_parsed_not_compared
    (clientKeypair : Keypair) (tomlObj : JsValue) (useJson : bool)
    (getResp : Response) (signed : Transaction) (resp : Response)
    (token jwtContents : JsValue) :
  post_answered fetch fromXDR sign toXDR clientKeypair tomlObj useJson
    getResp signed resp ->
  token_decoded decode jwtSchema validate resp token jwtContents ->
  (forall e,
     fromPublicKey (prop jwtContents "sub") = Thrown e ->
     exists f,
       makeFailure (postChallengeFailureModes !! "INVALID_JWT_SUB") ∅ = Normal f
       /\ failure_name f = "invalid jwt 'sub' attribute"
       /\ POST clientKeypair tomlObj useJson
          = (get_calls clientKeypair tomlObj getResp
               ++ post_calls useJson tomlObj (toXDR signed) resp
               ++ [SetFailure f],
             Normal None))
  /\ (forall subject,
        fromPublicKey (prop jwtContents "sub") = Normal subject ->
        POST clientKeypair tomlObj useJson
        = (get_calls clientKeypair tomlObj getResp
             ++ post_calls useJson tomlObj (toXDR signed) resp,
           Normal (Some token))).
Proof.
  intros Hanswered Hdecoded. split.
  - intros e Hsub.
    exact (postChallenge_sub_rejected _ _ _ _ _ _ _ _ _ Hanswered Hdecoded Hsub).
  - intros subject Hsub.
    exact (postChallenge_sub_accepted _ _ _ _ _ _ _ _ _ Hanswered Hdecoded Hsub).
Qed.

(** C8: metadata present but without a (non-empty) [WEB_AUTH_ENDPOINT]:
    the run assigns the failure named "no WEB_AUTH_ENDPOINT", returns
    nothing, pushes no network call, and leaves [networkCalls], [expected]
    and [actual] of the result as they were. *)
Theorem getChallenge_no_web_auth_endpoint
    (clientKeypair : Keypair) (tomlObj : JsValue) :
  truthy tomlObj = true ->
  truthy (prop tomlObj "WEB_AUTH_ENDPOINT") = false ->
  exists f,
    makeFailure (getChallengeFailureModes !! "NO_WEB_AUTH_ENDPOINT") ∅ = Normal f
    /\ failure_name f = "no WEB_AUTH_ENDPOINT"
    /\ GET clientKeypair tomlObj = ([SetFailure f], Normal None)
    /\ pushes (writes (GET clientKeypair tomlObj)) = 0%nat
    /\ forall result,
         run (GET clientKeypair tomlObj) result
         = (mkResult (networkCalls result) (Some f)
              (expected result) (actual result),
            Normal None).
Proof.
  intros Htoml Hendpoint.
  failure_at getChallengeFailureModes "NO_WEB_AUTH_ENDPOINT" (∅ : Args) 1%nat f.
  assert (Hrun : GET clientKeypair tomlObj = ([SetFailure f], Normal None)).
  { unfold getChallenge. rewrite !(get_prop_truthy _ _ Htoml). forward. reflexivity. }
  exists f. rewrite Hrun. repeat split; try assumption.
Qed.

(** C9: a [transaction] (resp. [token]) field that is present but falsy,
    the empty string for one, has the outcome of an absent field: the
    NO_TRANSACTION (resp. NO_TOKEN) failure. *)
Theorem falsy_field_is_missing_field
    (clientKeypair : Keypair) (tomlObj : JsValue) (useJson : bool) :
  (forall resp props,
     get_answered fetch clientKeypair tomlObj resp ->
     response_acceptable resp ->
     json resp = Normal (JObj props) ->
     truthy (default JUndefined (props !! "transaction")) = false ->
     exists f,
       makeFailure (getChallengeFailureModes !! "NO_TRANSACTION") ∅ = Normal f
       /\ failure_name f = "missing 'transaction' field"
       /\ GET clientKeypair tomlObj
          = (get_calls clientKeypair tomlObj resp ++ [SetFailure f], Normal None))
  /\ (forall getResp signed resp props,
        post_answered fetch fromXDR sign toXDR clientKeypair tomlObj useJson
          getResp signed resp ->
        response_acceptable resp ->
        json resp = Normal (JObj props) ->
        truthy (default JUndefined (props !! "token")) = false ->
        exists f,
          makeFailure (postChallengeFailureModes !! "NO_TOKEN") ∅ = Normal f
          /\ failure_name f = "no token"
          /\ POST clientKeypair tomlObj useJson
             = (get_calls clientKeypair tomlObj getResp
                  ++ post_calls useJson tomlObj (toXDR signed) resp
                  ++ [SetFailure f],
                Normal None)).
Proof.
  split.
  - intros resp props Hanswered Hacceptable Hjson Hfalsy.
    exact (getChallenge_no_transaction _ _ _ _ _ Hanswered Hacceptable Hjson
             eq_refl Hfalsy).
  - intros getResp signed resp props Hanswered Hacceptable Hjson Hfalsy.
    exact (postChallenge_no_token _ _ _ _ _ _ _ _ Hanswered Hacceptable Hjson
             eq_refl Hfalsy).
Qed.

(** C10: when [getChallenge] returns a challenge, [WEB_AUTH_ENDPOINT] can be
    read and is truthy, the challenge is an ordinary transaction that
    [fromXDR] decoded, and whatever failure the rest of [postChallenge]
    assigns is none of NO_TOML, NO_WEB_AUTH_ENDPOINT and
    INVALID_TRANSACTION_TYPE. *)
Theorem fetched_challenge_excludes_early_failures
    (clientKeypair : Keypair) (tomlObj : JsValue) (challenge : Transaction) :
  completion (GET clientKeypair tomlObj) = Normal (Some challenge) ->
  (exists endpoint,
     get_prop tomlObj "WEB_AUTH_ENDPOINT" = Normal endpoint
     /\ truthy endpoint = true)
  /\ (exists transaction,
        fromXDR transaction (prop tomlObj "NETWORK_PASSPHRASE")
        = Normal (IsTransaction challenge))
  /\ forall useJson f,
       In (SetFailure f) (writes (POST clientKeypair tomlObj useJson)) ->
       failure_name f <> "no TOML file"
       /\ failure_name f <> "no WEB_AUTH_ENDPOINT"
       /\ failure_name f <> "invalid transaction type".
Proof.
  intros Hsuccess.
  destruct (getChallenge_success_inv _ _ _ Hsuccess)
    as (resp & transaction & ((Htoml & Hendpoint & _) & _) & Hdecoded & _).
  split; [|split].
  - exists (prop tomlObj "WEB_AUTH_ENDPOINT").
    split; [apply get_prop_truthy; exact Htoml | exact Hendpoint].
  - exists transaction. exact Hdecoded.
  - intros useJson f Hin.
    pose proof (postChallenge_failures_after_fetch _ _ useJson _ f Hsuccess Hin)
      as Hname.
    cbn in Hname.
    repeat split; intros Heq; rewrite Heq in Hname;
      repeat (destruct Hname as [Hname|Hname]; [discriminate Hname|]);
      exact Hname.
Qed.

End Runs.

(** ** The claims on the concrete exchange *)

Lemma scenario_get_answered (resp : Response) :
  get_answered (Scenario.fetch (Normal resp) (Thrown "unreachable"))
    Scenario.client Scenario.toml resp.
Proof. repeat split; reflexivity. Defined.

Lemma scenario_post_answered (resp : Response) :
  post_answered (Scenario.fetch (Normal (Scenario.challengeResponse "AAAA")) (Normal resp))
    Scenario.fromXDR Scenario.sign Scenario.toXDR Scenario.client Scenario.toml
    false (Scenario.challengeResponse "AAAA") Scenario.signed resp.
Proof. exists Scenario.issued. repeat split; reflexivity. Defined.

Lemma scenario_token_decoded (token : string) (jwtContents : JsValue) :
  String.eqb token "" = false ->
  Scenario.decode (JStr token) = Normal jwtContents ->
  truthy jwtContents = true ->
  typeof_object jwtContents = true ->
  token_decoded Scenario.decode Scenario.jwtSchema Scenario.validate
    (Scenario.tokenResponse token) (JStr token) jwtContents.
Proof.
  intros Hnonempty Hdecode Htruthy Hobject.
  split; [split; reflexivity|].
  split; [eexists; split; reflexivity|].
  split; [cbn [truthy]; rewrite Hnonempty; reflexivity|].
  repeat split; assumption.
Defined.

Lemma getChallenge_exception_escapes_witness :
  get_answered
    (Scenario.fetch (Normal Scenario.unparseable) (Thrown "unreachable"))
    Scenario.client Scenario.toml Scenario.unparseable
  /\ response_acceptable Scenario.unparseable
  /\ json Scenario.unparseable = Thrown "invalid json response body"
  /\ completion (Scenario.getRun Scenario.unparseable Scenario.toml)
     = Thrown "invalid json response body"
  /\ failure_assignments
       (writes (Scenario.getRun Scenario.unparseable Scenario.toml)) = 0%nat
  /\ forall result,
       failure (run (Scenario.getRun Scenario.unparseable Scenario.toml)
                  result).1
       = failure result.
Proof.
  pose proof (scenario_get_answered Scenario.unparseable) as Hanswered.
  assert (Hacceptable : response_acceptable Scenario.unparseable)
    by (split; reflexivity).
  split; [exact Hanswered|]. split; [exact Hacceptable|]. split; [reflexivity|].
  exact (getChallenge_exception_escapes _ Scenario.fromXDR _ _ _ _
           Hanswered Hacceptable eq_refl).
Defined.

Lemma postChallenge_success_two_calls_witness :
  completion
    (Scenario.postRun (Scenario.challengeResponse "AAAA")
       (Scenario.tokenResponse "other.sub"))
  = Normal (Some (JStr "other.sub"))
  /\ pushes
       (writes
          (Scenario.postRun (Scenario.challengeResponse "AAAA")
             (Scenario.tokenResponse "other.sub"))) = 2%nat
  /\ failure_assignments
       (writes
          (Scenario.postRun (Scenario.challengeResponse "AAAA")
             (Scenario.tokenResponse "other.sub"))) = 0%nat
  /\ failure
       (run
          (Scenario.postRun (Scenario.challengeResponse "AAAA")
             (Scenario.tokenResponse "other.sub"))
          Scenario.emptyResult).1 = None.
Proof.
  assert (Hsuccess :
    completion
      (Scenario.postRun (Scenario.challengeResponse "AAAA")
         (Scenario.tokenResponse "other.sub"))
    = Normal (Some (JStr "other.sub"))) by reflexivity.
  split; [exact Hsuccess|].
  destruct (postChallenge_success_two_calls
              (Scenario.fetch (Normal (Scenario.challengeResponse "AAAA"))
                 (Normal (Scenario.tokenResponse "other.sub")))
              Scenario.fromXDR Scenario.sign Scenario.toXDR Scenario.fromPublicKey
              Scenario.decode Scenario.jwtSchema Scenario.validate
              Scenario.client Scenario.toml false (JStr "other.sub") Hsuccess)
    as (getResp & signed & postResp & _ & _ & _ & Hpushes & Hfailures & Hresult).
  split; [exact Hpushes|]. split; [exact Hfailures|].
  exact (proj2 (Hresult Scenario.emptyResult)).
Defined.

Lemma getChallenge_sequence_exactly_zero_witness :
  (get_transaction
     (Scenario.fetch (Normal (Scenario.challengeResponse "BBBB")) (Thrown "unreachable"))
     Scenario.client Scenario.toml (Scenario.challengeResponse "BBBB") (JStr "BBBB")
   /\ Scenario.fromXDR (JStr "BBBB") (prop Scenario.toml "NETWORK_PASSPHRASE")
      = Normal (IsTransaction (mkTransaction "1" []))
   /\ sequence (mkTransaction "1" []) <> "0"
   /\ exists f,
        failure_name f = "non-zero sequence number"
        /\ Scenario.getRun (Scenario.challengeResponse "BBBB") Scenario.toml
           = (get_calls Scenario.client Scenario.toml (Scenario.challengeResponse "BBBB")
                ++ [SetFailure f],
              Normal None))
  /\ (get_transaction
        (Scenario.fetch (Normal (Scenario.challengeResponse "AAAA")) (Thrown "unreachable"))
        Scenario.client Scenario.toml (Scenario.challengeResponse "AAAA") (JStr "AAAA")
      /\ Scenario.fromXDR (JStr "AAAA") (prop Scenario.toml "NETWORK_PASSPHRASE")
         = Normal (IsTransaction Scenario.issued)
      /\ sequence Scenario.issued = "0"
      /\ Scenario.getRun (Scenario.challengeResponse "AAAA") Scenario.toml
         = (get_calls Scenario.client Scenario.toml (Scenario.challengeResponse "AAAA"),
            Normal (Some Scenario.issued))).
Proof.
  assert (Hreached : forall envelope,
    String.eqb envelope "" = false ->
    get_transaction
      (Scenario.fetch (Normal (Scenario.challengeResponse envelope)) (Thrown "unreachable"))
      Scenario.client Scenario.toml (Scenario.challengeResponse envelope) (JStr envelope)).
  { intros envelope Hnonempty. split; [apply scenario_get_answered|].
    split; [split; reflexivity|].
    eexists. split; [reflexivity|]. split; [reflexivity|].
    cbn [truthy]. rewrite Hnonempty. reflexivity. }
  split.
  - pose proof (Hreached "BBBB" eq_refl) as Hone.
    assert (Hnonzero : sequence (mkTransaction "1" []) <> "0") by discriminate.
    split; [exact Hone|]. split; [reflexivity|]. split; [exact Hnonzero|].
    destruct (getChallenge_sequence_exactly_zero _ Scenario.fromXDR _ _ _ _
                (mkTransaction "1" []) Hone eq_refl)
      as (_ & Hrefused & _).
    destruct (Hrefused Hnonzero) as (f & _ & Hname & Hrun).
    exists f. split; [exact Hname | exact Hrun].
  - pose proof (Hreached "AAAA" eq_refl) as Hzero.
    split; [exact Hzero|]. split; [reflexivity|]. split; [reflexivity|].
    destruct (getChallenge_sequence_exactly_zero _ Scenario.fromXDR _ _ _ _
                Scenario.issued Hzero eq_refl)
      as (Haccepted & _ & _).
    exact (Haccepted eq_refl).
Defined.

Lemma mismatch_diagnostics_witness :
  (status Scenario.notFound <> 200
   /\ exists f,
        failure_name f = "unexpected status code"
        /\ run (Scenario.getRun Scenario.notFound Scenario.toml)
             Scenario.emptyResult
           = (mkResult [Scenario.getCall Scenario.notFound] (Some f)
                (Some (JNum 200)) (Some (JNum 404)),
              Normal None))
  /\ (headers_get Scenario.htmlPage "Content-Type" = Some "text/html"
      /\ exists f,
           failure_name f = "bad content type"
           /\ run (Scenario.getRun Scenario.htmlPage Scenario.toml)
                Scenario.emptyResult
              = (mkResult [Scenario.getCall Scenario.htmlPage] (Some f)
                   (Some (JStr "application/json")) (Some (JStr "text/html")),
                 Normal None))
  /\ (headers_get Scenario.untyped "Content-Type" = None
      /\ exists f,
           failure_name f = "bad content type"
           /\ run (Scenario.getRun Scenario.untyped Scenario.toml)
                Scenario.emptyResult
              = (mkResult [Scenario.getCall Scenario.untyped] (Some f)
                   (Some (JStr "application/json")) None,
                 Normal None))
  /\ (exists f,
        failure_name f = "unexpected status code"
        /\ run (Scenario.postRun (Scenario.challengeResponse "AAAA")
                  Scenario.notFound)
             Scenario.emptyResult
           = (mkResult
                [ Scenario.getCall (Scenario.challengeResponse "AAAA");
                  Scenario.postCall Scenario.notFound ]
                (Some f) (Some (JNum 200)) (Some (JNum 404)),
              Normal None))
  /\ (exists f,
        failure_name f = "bad content type"
        /\ run (Scenario.postRun (Scenario.challengeResponse "AAAA")
                  Scenario.untyped)
             Scenario.emptyResult
           = (mkResult
                [ Scenario.getCall (Scenario.challengeResponse "AAAA");
                  Scenario.postCall Scenario.untyped ]
                (Some f) (Some (JStr "application/json")) None,
              Normal None)).
Proof.
  assert (Hnot200 : status Scenario.notFound <> 200) by discriminate.
  assert (Hhtml : headers_get Scenario.htmlPage "Content-Type"
                  <> Some "application/json") by discriminate.
  assert (Hnone : headers_get Scenario.untyped "Content-Type"
                  <> Some "application/json") by discriminate.
  pose (claim := fun getAnswer postAnswer =>
    mismatch_diagnostics
      (Scenario.fetch (Normal getAnswer) postAnswer)
      Scenario.fromXDR Scenario.sign Scenario.toXDR Scenario.fromPublicKey
      Scenario.decode Scenario.jwtSchema Scenario.validate
      Scenario.client Scenario.toml false).
  split; [|split; [|split; [|split]]].
  - split; [exact Hnot200|].
    destruct (proj1 (proj1 (claim Scenario.notFound (Thrown "unreachable")) _
                (scenario_get_answered _)) Hnot200)
      as (f & _ & Hname & Hrun).
    exists f. split; [exact Hname | exact (Hrun Scenario.emptyResult)].
  - split; [reflexivity|].
    destruct (proj2 (proj1 (claim Scenario.htmlPage (Thrown "unreachable")) _
                (scenario_get_answered _)) eq_refl Hhtml)
      as (f & _ & Hname & Hrun).
    exists f. split; [exact Hname | exact (Hrun Scenario.emptyResult)].
  - split; [reflexivity|].
    destruct (proj2 (proj1 (claim Scenario.untyped (Thrown "unreachable")) _
                (scenario_get_answered _)) eq_refl Hnone)
      as (f & _ & Hname & Hrun).
    exists f. split; [exact Hname | exact (Hrun Scenario.emptyResult)].
  - destruct (proj1 (proj2 (claim (Scenario.challengeResponse "AAAA")
                              (Normal Scenario.notFound)) _ _ _
                (scenario_post_answered _)) Hnot200)
      as (f & _ & Hname & Hrun).
    exists f. split; [exact Hname | exact (Hrun Scenario.emptyResult)].
  - destruct (proj2 (proj2 (claim (Scenario.challengeResponse "AAAA")
                              (Normal Scenario.untyped)) _ _ _
                (scenario_post_answered _)) eq_refl Hnone)
      as (f & _ & Hname & Hrun).
    exists f. split; [exact Hname | exact (Hrun Scenario.emptyResult)].
Defined.

Lemma token_subject_parsed_not_compared_witness :
  (post_answered
     (Scenario.fetch (Normal (Scenario.challengeResponse "AAAA"))
        (Normal (Scenario.tokenResponse "other.sub")))
     Scenario.fromXDR Scenario.sign Scenario.toXDR Scenario.client Scenario.toml
     false (Scenario.challengeResponse "AAAA") Scenario.signed
     (Scenario.tokenResponse "other.sub")
   /\ token_decoded Scenario.decode Scenario.jwtSchema Scenario.validate
        (Scenario.tokenResponse "other.sub") (JStr "other.sub") Scenario.otherSubject
   /\ Scenario.fromPublicKey (prop Scenario.otherSubject "sub")
      = Normal (mkKeypair "GOTHER" None)
   /\ publicKey (mkKeypair "GOTHER" None) <> publicKey Scenario.client
   /\ Scenario.postRun (Scenario.challengeResponse "AAAA")
        (Scenario.tokenResponse "other.sub")
      = (get_calls Scenario.client Scenario.toml (Scenario.challengeResponse "AAAA")
           ++ post_calls false Scenario.toml (Scenario.toXDR Scenario.signed)
                (Scenario.tokenResponse "other.sub"),
         Normal (Some (JStr "other.sub"))))
  /\ (Scenario.fromPublicKey (prop Scenario.badSubject "sub")
      = Thrown "Invalid Stellar public key"
      /\ exists f,
           failure_name f = "invalid jwt 'sub' attribute"
           /\ Scenario.postRun (Scenario.challengeResponse "AAAA")
                (Scenario.tokenResponse "bad.sub")
              = (get_calls Scenario.client Scenario.toml
                   (Scenario.challengeResponse "AAAA")
                   ++ post_calls false Scenario.toml (Scenario.toXDR Scenario.signed)
                        (Scenario.tokenResponse "bad.sub")
                   ++ [SetFailure f],
                 Normal None)).
Proof.
  pose (claim := fun token jwtContents =>
    token_subject_parsed_not_compared
      (Scenario.fetch (Normal (Scenario.challengeResponse "AAAA"))
         (Normal (Scenario.tokenResponse token)))
      Scenario.fromXDR Scenario.sign Scenario.toXDR Scenario.fromPublicKey
      Scenario.decode Scenario.jwtSchema Scenario.validate
      Scenario.client Scenario.toml false (Scenario.challengeResponse "AAAA")
      Scenario.signed (Scenario.tokenResponse token) (JStr token) jwtContents
      (scenario_post_answered _)).
  split.
  - pose proof (scenario_token_decoded "other.sub" Scenario.otherSubject
                  eq_refl eq_refl eq_refl eq_refl) as Hdecoded.
    split; [apply scenario_post_answered|]. split; [exact Hdecoded|].
    split; [reflexivity|]. split; [discriminate|].
    exact (proj2 (claim "other.sub" Scenario.otherSubject Hdecoded)
             (mkKeypair "GOTHER" None) eq_refl).
  - pose proof (scenario_token_decoded "bad.sub" Scenario.badSubject
                  eq_refl eq_refl eq_refl eq_refl) as Hdecoded.
    split; [reflexivity|].
    destruct (proj1 (claim "bad.sub" Scenario.badSubject Hdecoded)
                "Invalid Stellar public key" eq_refl)
      as (f & _ & Hname & Hrun).
    exists f. split; [exact Hname | exact Hrun].
Defined.

Lemma getChallenge_no_web_auth_endpoint_witness :
  truthy (JObj ∅) = true
  /\ truthy (prop (JObj ∅) "WEB_AUTH_ENDPOINT") = false
  /\ exists f,
      makeFailure (getChallengeFailureModes !! "NO_WEB_AUTH_ENDPOINT") ∅ = Normal f
      /\ failure_name f = "no WEB_AUTH_ENDPOINT"
      /\ Scenario.getRun Scenario.notFound (JObj ∅)
         = ([SetFailure f], Normal None)
      /\ pushes (writes (Scenario.getRun Scenario.notFound (JObj ∅))) = 0%nat
      /\ forall result,
           run (Scenario.getRun Scenario.notFound (JObj ∅)) result
           = (mkResult (networkCalls result) (Some f)
                (expected result) (actual result),
              Normal None).
Proof.
  split; [reflexivity|]. split; [reflexivity|].
  exact (getChallenge_no_web_auth_endpoint
           (Scenario.fetch (Normal Scenario.notFound) (Thrown "unreachable"))
           Scenario.fromXDR Scenario.client (JObj ∅) eq_refl eq_refl).
Defined.

Lemma falsy_field_is_missing_field_witness :
  (json (Scenario.challengeResponse "")
   = Normal (JObj {[ "transaction" := JStr "" ]})
   /\ exists f,
        failure_name f = "missing 'transaction' field"
        /\ Scenario.getRun (Scenario.challengeResponse "") Scenario.toml
           = (get_calls Scenario.client Scenario.toml (Scenario.challengeResponse "")
                ++ [SetFailure f],
              Normal None))
  /\ (json (Scenario.tokenResponse "") = Normal (JObj {[ "token" := JStr "" ]})
      /\ exists f,
           failure_name f = "no token"
           /\ Scenario.postRun (Scenario.challengeResponse "AAAA")
                (Scenario.tokenResponse "")
              = (get_calls Scenario.client Scenario.toml
                   (Scenario.challengeResponse "AAAA")
                   ++ post_calls false Scenario.toml (Scenario.toXDR Scenario.signed)
                        (Scenario.tokenResponse "")
                   ++ [SetFailure f],
                 Normal None)).
Proof.
  pose (claim := fun getAnswer postAnswer =>
    falsy_field_is_missing_field
      (Scenario.fetch (Normal getAnswer) postAnswer)
      Scenario.fromXDR Scenario.sign Scenario.toXDR Scenario.fromPublicKey
      Scenario.decode Scenario.jwtSchema Scenario.validate
      Scenario.client Scenario.toml false).
  split.
  - split; [reflexivity|].
    destruct (proj1 (claim (Scenario.challengeResponse "") (Thrown "unreachable"))
                (Scenario.challengeResponse "") {[ "transaction" := JStr "" ]}
                (scenario_get_answered _) (conj eq_refl eq_refl) eq_refl eq_refl)
      as (f & _ & Hname & Hrun).
    exists f. split; [exact Hname | exact Hrun].
  - split; [reflexivity|].
    destruct (proj2 (claim (Scenario.challengeResponse "AAAA")
                       (Normal (Scenario.tokenResponse "")))
                (Scenario.challengeResponse "AAAA") Scenario.signed
                (Scenario.tokenResponse "") {[ "token" := JStr "" ]}
                (scenario_post_answered _) (conj eq_refl eq_refl) eq_refl eq_refl)
      as (f & _ & Hname & Hrun).
    exists f. split; [exact Hname | exact Hrun].
Defined.

Lemma fetched_challenge_excludes_early_failures_witness :
  completion
    (getChallenge
       (Scenario.fetch (Normal (Scenario.challengeResponse "AAAA"))
          (Normal Scenario.notFound))
       Scenario.fromXDR Scenario.client Scenario.toml)
  = Normal (Some Scenario.issued)
  /\ (exists endpoint,
        get_prop Scenario.toml "WEB_AUTH_ENDPOINT" = Normal endpoint
        /\ truthy endpoint = true)
  /\ (exists transaction,
        Scenario.fromXDR transaction (prop Scenario.toml "NETWORK_PASSPHRASE")
        = Normal (IsTransaction Scenario.issued))
  /\ forall f,
       In (SetFailure f)
         (writes (Scenario.postRun (Scenario.challengeResponse "AAAA")
                    Scenario.notFound)) ->
       failure_name f <> "no TOML file"
       /\ failure_name f <> "no WEB_AUTH_ENDPOINT"
       /\ failure_name f <> "invalid transaction type".
Proof.
  assert (Hsuccess :
    completion
      (getChallenge
         (Scenario.fetch (Normal (Scenario.challengeResponse "AAAA"))
            (Normal Scenario.notFound))
         Scenario.fromXDR Scenario.client Scenario.toml)
    = Normal (Some Scenario.issued)) by reflexivity.
  split; [exact Hsuccess|].
  destruct (fetched_challenge_excludes_early_failures
              (Scenario.fetch (Normal (Scenario.challengeResponse "AAAA"))
                 (Normal Scenario.notFound))
              Scenario.fromXDR Scenario.sign Scenario.toXDR Scenario.fromPublicKey
              Scenario.decode Scenario.jwtSchema Scenario.validate
              Scenario.client Scenario.toml Scenario.issued Hsuccess)
    as (Hendpoint & Hordinary & Hfailures).
  split; [exact Hendpoint|]. split; [exact Hordinary|].
  intros f Hin. exact (Hfailures false f Hin).
Defined.

(** * Further properties of the two operations *)

Lemma not_object_check (v : JsValue) :
  negb (truthy v) || negb (typeof_object v) = negb (object_or_array v).
Proof. destruct v as [| |[]| | | |]; cbn; rewrite ?orb_true_r; reflexivity. Qed.

Lemma arg_singleton (k : string) (v : JsValue) :
  arg {[ k := v ]} k = to_js_string v.
Proof. unfold arg, Args. rewrite lookup_singleton_eq. reflexivity. Qed.

(** A catalog entry that exists cannot make [makeFailure] throw. *)
Ltac refute_thrown :=
  match goal with
  | H : makeFailure (?cat !! ?key) ?args = Thrown _ |- _ =>
      let o := eval vm_compute in (cat !! key) in
      lazymatch o with
      | Some ?r =>
          let H' := fresh "H" in
          destruct (makeFailure_defined cat key args r _ eq_refl eq_refl)
            as (? & H' & _);
          rewrite H in H'; discriminate H'
      end
  end.

(** The failure each leaf of a case analysis has assigned, by name. *)
Ltac named_failures :=
  repeat match goal with
  | H : makeFailure (?cat !! ?key) ?args = Normal ?f |- _ =>
      let o := eval vm_compute in (cat !! key) in
      lazymatch o with
      | Some ?r =>
          let f' := fresh "f" in
          let H' := fresh "H" in
          let Hn := fresh "Hname" in
          destruct (makeFailure_defined cat key args r _ eq_refl eq_refl)
            as (f' & H' & _ & Hn & _);
          rewrite H in H'; injection H' as <-; cbn [name] in Hn; clear H
      end
  end.

Section Edges.

Variable fetch : Request -> Completion Response.
Variable fromXDR : JsValue -> JsValue -> Completion Decoded.
Variable sign : Transaction -> Keypair -> Completion Transaction.
Variable toXDR : Transaction -> string.
Variable fromPublicKey : JsValue -> Completion Keypair.
Variable decode : JsValue -> Completion JsValue.
Variable jwtSchema : JsValue.
Variable validate : JsValue -> JsValue -> list string.

Abbreviation GET := (getChallenge fetch fromXDR).
Abbreviation POST :=
  (postChallenge fetch fromXDR sign toXDR fromPublicKey decode jwtSchema validate).

(** X1: absent metadata, in whichever falsy form, is reported as the
    failure "no TOML file" without a property read and without a network
    call, by [getChallenge] and, through it, by [postChallenge]. *)
Theorem absent_metadata_is_no_toml
    (clientKeypair : Keypair) (tomlObj : JsValue) (useJson : bool) :
  truthy tomlObj = false ->
  exists f,
    makeFailure (getChallengeFailureModes !! "NO_TOML") ∅ = Normal f
    /\ failure_name f = "no TOML file"
    /\ message f = "Unable to fetch TOML"
    /\ GET clientKeypair tomlObj = ([SetFailure f], Normal None)
    /\ POST clientKeypair tomlObj useJson = ([SetFailure f], Normal None).
Proof.
  intros Hfalsy.
  destruct (makeFailure_defined getChallengeFailureModes "NO_TOML" ∅ 0%nat _
              eq_refl eq_refl) as (f & Hf & _ & Hname & Hmessage).
  pose proof (assign_failure_normal _ _ _ Hf) as Hassign.
  assert (Hget : GET clientKeypair tomlObj = ([SetFailure f], Normal None)).
  { unfold getChallenge. forward. reflexivity. }
  exists f. repeat split; try assumption.
  unfold postChallenge. rewrite Hget. reflexivity.
Qed.





(** X4: a fee-bump envelope is refused as "invalid transaction type"
    whatever transaction it wraps; the sequence number is not looked at. *)
Theorem getChallenge_fee_bump_refused
    (clientKeypair : Keypair) (tomlObj : JsValue) (resp : Response)
    (transaction : JsValue) (wrapper : FeeBumpTransaction) :
  get_transaction fetch clientKeypair tomlObj resp transaction ->
  fromXDR transaction (prop tomlObj "NETWORK_PASSPHRASE") = Normal (IsFeeBump wrapper) ->
  exists f,
    makeFailure (getChallengeFailureModes !! "INVALID_TRANSACTION_TYPE") ∅ = Normal f
    /\ failure_name f = "invalid transaction type"
    /\ GET clientKeypair tomlObj
       = (get_calls clientKeypair tomlObj resp ++ [SetFailure f], Normal None).
Proof.
  intros ((Htoml & Hendpoint & Hfetch) & (Hstatus & Hct) & body & Hjson & Hfield & Htruthy)
    Hdecode.
  failure_at getChallengeFailureModes "INVALID_TRANSACTION_TYPE" (∅ : Args) 7%nat f.
  exists f. split; [assumption|]. split; [assumption|].
  unfold getChallenge, get_calls.
  rewrite !(get_prop_truthy _ _ Htoml). forward. reflexivity.
Qed.


(** X6: a challenge that [getChallenge] returns has passed every check: it
    was decoded, as an ordinary transaction with sequence "0", from the
    truthy [transaction] of an acceptable response to the one call the run
    has recorded, and the run has changed nothing of the result but
    [networkCalls]. *)
Theorem getChallenge_returns_validated
    (clientKeypair : Keypair) (tomlObj : JsValue) (challenge : Transaction) :
  completion (GET clientKeypair tomlObj) = Normal (Some challenge) ->
  exists resp transaction,
    get_transaction fetch clientKeypair tomlObj resp transaction
    /\ fromXDR transaction (prop tomlObj "NETWORK_PASSPHRASE")
       = Normal (IsTransaction challenge)
    /\ sequence challenge = "0"
    /\ forall result,
         run (GET clientKeypair tomlObj) result
         = (mkResult
              (networkCalls result
                 ++ [mkNetworkCall
                       (getAuthCall_request clientKeypair
                          (prop tomlObj "WEB_AUTH_ENDPOINT"))
                       (Some resp)])
              (failure result) (expected result) (actual result),
            Normal (Some challenge)).
Proof.
  intros Hsuccess.
  destruct (getChallenge_success_inv _ _ _ _ _ Hsuccess)
    as (resp & transaction & Hreached & Hdecoded & Hzero & Hrun).
  exists resp, transaction.
  split; [exact Hreached|]. split; [exact Hdecoded|]. split; [exact Hzero|].
  intros result. unfold run. rewrite Hrun. unfold get_calls.
  cbn [writes completion fst snd]. rewrite apply_writes_call. reflexivity.
Qed.

(** *** [postChallenge] *)

Lemma get_fetched_metadata
    (clientKeypair : Keypair) (tomlObj : JsValue) (getResp : Response)
    (challenge : Transaction) :
  get_fetched fetch fromXDR clientKeypair tomlObj getResp challenge ->
  truthy tomlObj = true /\ sequence challenge = "0".
Proof.
  intros Hget.
  destruct (getChallenge_success_inv fetch fromXDR clientKeypair tomlObj challenge)
    as (r & t & ((Htoml & _) & _) & _ & Hzero & _).
  - unfold get_fetched in Hget. rewrite Hget. reflexivity.
  - split; assumption.
Qed.

(** Enter [postChallenge] after a successful fetch. *)
Ltac enter_post Hget :=
  let Htoml := fresh "Htoml" in
  destruct (get_fetched_metadata _ _ _ _ Hget) as (Htoml & _);
  unfold postChallenge, get_calls, post_calls;
  try unfold get_fetched in Hget; unfold get_calls in Hget;
  rewrite Hget; mrun;
  rewrite !(get_prop_truthy _ _ Htoml);
  forward.

(** Enter [postChallenge] along an answered POST. *)
Ltac enter_answered H :=
  let challenge := fresh "challenge" in
  let Hget := fresh "Hget" in
  let Hsign := fresh "Hsign" in
  let Hfetch := fresh "Hfetch" in
  destruct H as (challenge & Hget & Hsign & Hfetch);
  enter_post Hget.

(** X7: [postChallenge] starts by running [getChallenge] and keeps what it
    recorded: when the fetch returns nothing or throws, [postChallenge] ends
    the same way with the same writes; otherwise it only adds writes after
    those of the fetch. *)
Theorem postChallenge_extends_getChallenge
    (clientKeypair : Keypair) (tomlObj : JsValue) (useJson : bool) :
  match completion (GET clientKeypair tomlObj) with
  | Normal (Some _) =>
      exists rest,
        writes (POST clientKeypair tomlObj useJson)
        = writes (GET clientKeypair tomlObj) ++ rest
  | Normal None =>
      POST clientKeypair tomlObj useJson
      = (writes (GET clientKeypair tomlObj), Normal None)
  | Thrown e =>
      POST clientKeypair tomlObj useJson
      = (writes (GET clientKeypair tomlObj), Thrown e)
  end.
Proof.
  unfold postChallenge.
  destruct (GET clientKeypair tomlObj) as [ws [[challenge|]|e]]; mrun.
  - match goal with
    | |- context [match ?rest with pair _ _ => _ end] => destruct rest as [ws' c]
    end.
    exists ws'. reflexivity.
  - rewrite app_nil_r. reflexivity.
  - reflexivity.
Qed.

(** X8: a keypair that cannot sign makes [postChallenge] throw the signing
    error: the challenge has been fetched, no POST is issued and no failure
    is assigned. *)
Theorem postChallenge_signing_error_escapes
    (clientKeypair : Keypair) (tomlObj : JsValue) (useJson : bool)
    (getResp : Response) (challenge : Transaction) (e : string) :
  get_fetched fetch fromXDR clientKeypair tomlObj getResp challenge ->
  sign challenge clientKeypair = Thrown e ->
  POST clientKeypair tomlObj useJson
  = (get_calls clientKeypair tomlObj getResp, Thrown e)
  /\ pushes (writes (POST clientKeypair tomlObj useJson)) = 1%nat
  /\ failure_assignments (writes (POST clientKeypair tomlObj useJson)) = 0%nat.
Proof.
  intros Hget Hsign.
  assert (Hrun : POST clientKeypair tomlObj useJson
                 = (get_calls clientKeypair tomlObj getResp, Thrown e)).
  { enter_post Hget. reflexivity. }
  rewrite Hrun. repeat split.
Qed.


(** X10: an acceptable POST response whose body does not parse, or parses
    to [null], makes [postChallenge] throw, as in the GET phase: both calls
    are recorded and no failure is assigned. *)
Theorem postChallenge_exception_escapes
    (clientKeypair : Keypair) (tomlObj : JsValue) (useJson : bool)
    (getResp : Response) (signed : Transaction) (resp : Response) :
  post_answered fetch fromXDR sign toXDR clientKeypair tomlObj useJson
    getResp signed resp ->
  response_acceptable resp ->
  (forall e,
     json resp = Thrown e ->
     POST clientKeypair tomlObj useJson
     = (get_calls clientKeypair tomlObj getResp
          ++ post_calls useJson tomlObj (toXDR signed) resp,
        Thrown e))
  /\ (json resp = Normal JNull ->
      POST clientKeypair tomlObj useJson
      = (get_calls clientKeypair tomlObj getResp
           ++ post_calls useJson tomlObj (toXDR signed) resp,
         Thrown "TypeError: Cannot read properties of null")).
Proof.
  intros Hpost (Hstatus & Hct). split.
  - intros e Hjson. enter_answered Hpost. reflexivity.
  - intros Hjson. enter_answered Hpost. reflexivity.
Qed.

(** Enter [postChallenge] up to the decoding of the token. *)
Ltac enter_token H :=
  let Hpost := fresh "Hpost" in
  let Hstatus := fresh "Hstatus" in
  let Hct := fresh "Hct" in
  let body := fresh "body" in
  let Hjson := fresh "Hjson" in
  let Hfield := fresh "Hfield" in
  let Htruthy := fresh "Htruthy" in
  destruct H as (Hpost & (Hstatus & Hct) & body & Hjson & Hfield & Htruthy);
  enter_answered Hpost.

(** X11: a token that [decode] throws on is reported as "JWT decode
    failure", the message carrying the decoder's own error text. *)
Theorem postChallenge_jwt_decode_failure
    (clientKeypair : Keypair) (tomlObj : JsValue) (useJson : bool)
    (getResp : Response) (signed : Transaction) (resp : Response)
    (token : JsValue) (e : string) :
  post_token fetch fromXDR sign toXDR clientKeypair tomlObj useJson
    getResp signed resp token ->
  decode token = Thrown e ->
  exists f,
    makeFailure (postChallengeFailureModes !! "JWT_DECODE_FAILURE")
      {[ "error" := JStr e ]} = Normal f
    /\ failure_name f = "JWT decode failure"
    /\ message f
       = "Unable to decode the JWT." +:+ LF +:+ LF
         +:+ "The jsonwebtoken library returned: " +:+ e
    /\ POST clientKeypair tomlObj useJson
       = (get_calls clientKeypair tomlObj getResp
            ++ post_calls useJson tomlObj (toXDR signed) resp
            ++ [SetFailure f],
          Normal None).
Proof.
  intros Htoken Hdecode.
  destruct (makeFailure_defined postChallengeFailureModes "JWT_DECODE_FAILURE"
              {[ "error" := JStr e ]} 10%nat _ eq_refl eq_refl)
    as (f & Hf & _ & Hname & Hmessage).
  pose proof (assign_failure_normal _ _ _ Hf) as Hassign.
  cbn [text name] in Hmessage, Hname. rewrite arg_singleton in Hmessage.
  cbn [to_js_string] in Hmessage.
  exists f. split; [exact Hf|]. split; [exact Hname|]. split; [exact Hmessage|].
  clear Hmessage. enter_token Htoken. reflexivity.
Qed.

(** X12: the decoded payload passes the test of line 274 exactly when it is
    an object or an array: [null], [undefined], strings, numbers and
    booleans are reported as "JWT contents is not JSON", while an array goes
    on to schema validation and is never reported under that name. *)
Theorem postChallenge_jwt_not_json
    (clientKeypair : Keypair) (tomlObj : JsValue) (useJson : bool)
    (getResp : Response) (signed : Transaction) (resp : Response)
    (token jwtContents : JsValue) :
  post_token fetch fromXDR sign toXDR clientKeypair tomlObj useJson
    getResp signed resp token ->
  decode token = Normal jwtContents ->
  (object_or_array jwtContents = false ->
     exists f,
       makeFailure (postChallengeFailureModes !! "JWT_NOT_JSON") ∅ = Normal f
       /\ failure_name f = "JWT contents is not JSON"
       /\ POST clientKeypair tomlObj useJson
          = (get_calls clientKeypair tomlObj getResp
               ++ post_calls useJson tomlObj (toXDR signed) resp
               ++ [SetFailure f],
             Normal None))
  /\ (object_or_array jwtContents = true ->
      forall f,
        In (SetFailure f) (writes (POST clientKeypair tomlObj useJson)) ->
        failure_name f <> "JWT contents is not JSON").
Proof.
  intros Htoken Hdecode. split.
  - intros Hprimitive.
    failure_at postChallengeFailureModes "JWT_NOT_JSON" (∅ : Args) 11%nat f.
    exists f. split; [assumption|]. split; [assumption|].
    enter_token Htoken. rewrite not_object_check, Hprimitive. forward. reflexivity.
  - intros Hobject f.
    enter_token Htoken. rewrite not_object_check, Hobject. cbn [negb].
    exec; named_failures; intros Hin; cbn in Hin;
      repeat (destruct Hin as [Hin|Hin]; try discriminate Hin);
      try contradiction;
      injection Hin as <-;
      match goal with H : failure_name _ = _ |- _ => rewrite H end;
      discriminate.
Qed.

(** X13: schema violations are reported as "invalid JWT content schema",
    the message being the violations joined by line feeds; the subject is
    not examined. *)
Theorem postChallenge_invalid_jwt_schema
    (clientKeypair : Keypair) (tomlObj : JsValue) (useJson : bool)
    (getResp : Response) (signed : Transaction) (resp : Response)
    (token jwtContents : JsValue) :
  post_token fetch fromXDR sign toXDR clientKeypair tomlObj useJson
    getResp signed resp token ->
  decode token = Normal jwtContents ->
  object_or_array jwtContents = true ->
  validate jwtContents jwtSchema <> [] ->
  exists f,
    makeFailure (postChallengeFailureModes !! "INVALID_JWT_SCHEMA")
      {[ "errors" := JStr (String.concat LF (validate jwtContents jwtSchema)) ]}
    = Normal f
    /\ failure_name f = "invalid JWT content schema"
    /\ message f = String.concat LF (validate jwtContents jwtSchema)
    /\ POST clientKeypair tomlObj useJson
       = (get_calls clientKeypair tomlObj getResp
            ++ post_calls useJson tomlObj (toXDR signed) resp
            ++ [SetFailure f],
          Normal None).
Proof.
  intros Htoken Hdecode Hobject Herrors.
  destruct (makeFailure_defined postChallengeFailureModes "INVALID_JWT_SCHEMA"
              {[ "errors" := JStr (String.concat LF (validate jwtContents jwtSchema)) ]}
              12%nat _ eq_refl eq_refl)
    as (f & Hf & _ & Hname & Hmessage).
  pose proof (assign_failure_normal _ _ _ Hf) as Hassign.
  cbn [text name] in Hmessage, Hname. rewrite arg_singleton in Hmessage.
  cbn [to_js_string] in Hmessage.
  exists f. split; [exact Hf|]. split; [exact Hname|]. split; [exact Hmessage|].
  clear Hmessage. enter_token Htoken. rewrite not_object_check, Hobject. cbn [negb].
  destruct (validate jwtContents jwtSchema) as [|err errs] eqn:Hvalid;
    [congruence|].
  cbn [List.length Nat.eqb negb]. forward. reflexivity.
Qed.

(** X14: once the challenge is fetched and signed, every run of
    [postChallenge] falls in one of three classes.  It returns the token,
    having passed every check and assigned no failure; or it returns nothing
    and has assigned, once, the failure of the first check that fails, in
    source order; or it throws, which happens only at the read of the body's
    [token], with no failure assigned. *)
Theorem postChallenge_outcome_classified
    (clientKeypair : Keypair) (tomlObj : JsValue) (useJson : bool)
    (getResp : Response) (challenge signed : Transaction) :
  get_fetched fetch fromXDR clientKeypair tomlObj getResp challenge ->
  sign challenge clientKeypair = Normal signed ->
  let verdict :=
    first_post_violation fetch fromPublicKey decode jwtSchema validate
      (postAuthCall_request useJson (prop tomlObj "WEB_AUTH_ENDPOINT")
         (toXDR signed)) in
  match completion (POST clientKeypair tomlObj useJson) with
  | Normal (Some token) =>
      verdict = None
      /\ filter is_SetFailure (writes (POST clientKeypair tomlObj useJson)) = []
  | Normal None =>
      exists key args f,
        verdict = Some key
        /\ makeFailure (postChallengeFailureModes !! key) args = Normal f
        /\ filter is_SetFailure (writes (POST clientKeypair tomlObj useJson))
           = [SetFailure f]
  | Thrown _ =>
      verdict = Some "NO_TOKEN"
      /\ filter is_SetFailure (writes (POST clientKeypair tomlObj useJson)) = []
  end.
Proof.
  intros Hget Hsign. cbv zeta. unfold first_post_violation.
  destruct (get_fetched_metadata _ _ _ _ Hget) as (Htoml & _).
  unfold postChallenge. unfold get_fetched, get_calls in Hget. rewrite Hget. mrun.
  rewrite Hsign. mrun. rewrite !(get_prop_truthy _ _ Htoml). mrun.
  rewrite ?not_object_check.
  repeat (mrun; rewrite ?content_type_check, ?not_object_check;
          match goal with
          | |- context [@completion _ ?m] => step_run m
          end).
  all: mrun.
  all: try refute_thrown.
  all: try match goal with
       | Ho : object_or_array ?v = true, Hg : get_prop ?v _ = Thrown _ |- _ =>
           destruct v; first [discriminate Ho | discriminate Hg]
       end.
  all: repeat (progress
         (repeat match goal with
          | H : get_prop ?b ?k = Normal ?v |- context [prop ?b ?k] =>
              replace (prop b k) with v by (unfold prop; rewrite H; reflexivity)
          | H : get_prop ?b ?k = Thrown _ |- context [prop ?b ?k] =>
              replace (prop b k) with JUndefined
                by (unfold prop; rewrite H; reflexivity)
          end;
          repeat match goal with H : _ = _ |- _ => rewrite H end;
          cbn [negb truthy])).
  all: first [ split; reflexivity
             | do 3 eexists; split; [reflexivity|]; split; [eassumption|reflexivity] ].
Qed.

(** *** What the two operations never do *)



(** What a leaf trace does to [networkCalls]. *)
Ltac appended_calls :=
  let result := fresh "result" in
  intros result; unfold run; cbn [writes fst];
  rewrite ?apply_writes_call;
  unfold apply_writes;
  cbn [foldl apply_write networkCalls failure expected actual];
  first [ exists []; rewrite app_nil_r; split; reflexivity
        | eexists; split; reflexivity
        | rewrite <- app_assoc; eexists; split; reflexivity ].

Lemma getChallenge_appends_calls (clientKeypair : Keypair) (tomlObj : JsValue) :
  forall result,
    exists new,
      networkCalls (run (GET clientKeypair tomlObj) result).1
      = networkCalls result ++ new
      /\ List.length new = pushes (writes (GET clientKeypair tomlObj)).
Proof.
  unfold getChallenge. exec; appended_calls.
Qed.

(** X16: [networkCalls] is append-only.  Whatever result a run starts from,
    the calls it held are still there, unchanged and in place, when the run
    ends; the run adds one entry per call it pushed, at most one for
    [getChallenge] and at most two for [postChallenge]. *)
Theorem networkCalls_append_only
    (clientKeypair : Keypair) (tomlObj : JsValue) (useJson : bool)
    (result : Result) :
  (exists new,
     networkCalls (run (GET clientKeypair tomlObj) result).1
     = networkCalls result ++ new
     /\ List.length new = pushes (writes (GET clientKeypair tomlObj))
     /\ (List.length new <= 1)%nat)
  /\ (exists new,
        networkCalls (run (POST clientKeypair tomlObj useJson) result).1
        = networkCalls result ++ new
        /\ List.length new = pushes (writes (POST clientKeypair tomlObj useJson))
        /\ (List.length new <= 2)%nat).
Proof.
  split.
  - destruct (getChallenge_appends_calls clientKeypair tomlObj result)
      as (new & Hnew & Hlength).
    exists new. split; [exact Hnew|]. split; [exact Hlength|].
    rewrite Hlength.
    apply (getChallenge_failure_terminal fetch fromXDR clientKeypair tomlObj).
  - assert (Hpost : exists new,
        networkCalls (run (POST clientKeypair tomlObj useJson) result).1
        = networkCalls result ++ new
        /\ List.length new = pushes (writes (POST clientKeypair tomlObj useJson))).
    { pose proof (getChallenge_appends_calls clientKeypair tomlObj) as Hget.
      revert result. unfold postChallenge.
      destruct (GET clientKeypair tomlObj) as [ws [[challenge|]|e]] eqn:Hrun.
      - clear Hget.
        destruct (getChallenge_success_inv fetch fromXDR clientKeypair tomlObj challenge)
          as (getResp & t & _ & _ & _ & Hshape); [rewrite Hrun; reflexivity|].
        rewrite Hrun in Hshape. injection Hshape as ->.
        unfold get_calls. exec; appended_calls.
      - mrun. rewrite app_nil_r. exact Hget.
      - mrun. exact Hget. }
    destruct Hpost as (new & Hnew & Hlength).
    exists new. split; [exact Hnew|]. split; [exact Hlength|].
    rewrite Hlength.
    apply (postChallenge_failure_terminal fetch fromXDR sign toXDR fromPublicKey
             decode jwtSchema validate clientKeypair tomlObj useJson).
Qed.

Lemma getChallenge_diagnostics_on_mismatch
    (clientKeypair : Keypair) (tomlObj : JsValue) (w : Write) :
  In w (writes (GET clientKeypair tomlObj)) ->
  (exists v, w = SetExpected v \/ w = SetActual v) ->
  exists f,
    In (SetFailure f) (writes (GET clientKeypair tomlObj))
    /\ (failure_name f = "unexpected status code"
        \/ failure_name f = "bad content type").
Proof.
  unfold getChallenge.
  exec; named_failures; intros Hin (v & Hv); cbn in Hin;
    repeat (destruct Hin as [Hin|Hin];
            [subst w; destruct Hv as [Hv|Hv]; try discriminate Hv|]);
    try contradiction;
    eexists; (split; [cbn; eauto 10 | eauto]).
Qed.

(** X17: [expected] and [actual] are written only for a mismatch: a run of
    either operation that writes one of them has assigned the failure
    "unexpected status code" or "bad content type". *)
Theorem diagnostics_only_on_mismatch
    (clientKeypair : Keypair) (tomlObj : JsValue) (useJson : bool) (w : Write) :
  (exists v, w = SetExpected v \/ w = SetActual v) ->
  (In w (writes (GET clientKeypair tomlObj)) ->
   exists f,
     In (SetFailure f) (writes (GET clientKeypair tomlObj))
     /\ (failure_name f = "unexpected status code"
         \/ failure_name f = "bad content type"))
  /\ (In w (writes (POST clientKeypair tomlObj useJson)) ->
      exists f,
        In (SetFailure f) (writes (POST clientKeypair tomlObj useJson))
        /\ (failure_name f = "unexpected status code"
            \/ failure_name f = "bad content type")).
Proof.
  intros Hw. split.
  - intros Hin. exact (getChallenge_diagnostics_on_mismatch _ _ _ Hin Hw).
  - pose proof (getChallenge_diagnostics_on_mismatch clientKeypair tomlObj w) as Hget.
    unfold postChallenge.
    destruct (GET clientKeypair tomlObj) as [ws [[challenge|]|e]] eqn:Hrun.
    + clear Hget.
      destruct (getChallenge_success_inv fetch fromXDR clientKeypair tomlObj challenge)
        as (getResp & t & _ & _ & _ & Hshape); [rewrite Hrun; reflexivity|].
      rewrite Hrun in Hshape. injection Hshape as ->.
      unfold get_calls. destruct Hw as (v & Hv).
      exec; named_failures; intros Hin; cbn in Hin;
        repeat (destruct Hin as [Hin|Hin];
                [subst w; destruct Hv as [Hv|Hv]; try discriminate Hv|]);
        try contradiction;
        eexists; (split; [cbn; eauto 10 | eauto]).
    + mrun. rewrite app_nil_r. cbn [writes fst] in Hget.
      intros Hin. exact (Hget Hin Hw).
    + mrun. cbn [writes fst] in Hget.
      intros Hin. exact (Hget Hin Hw).
Qed.

End Edges.

(** X18: a failure's name tells its kind.  The fourteen failure objects
    bear pairwise distinct names, so two failures made from the POST catalog
    (which holds them all) that bear the same name come from the same
    catalog key and the same failure object. *)
Theorem failure_name_determines_kind
    (key1 key2 : string) (args1 args2 : Args) (f1 f2 : MaterializedFailure) :
  makeFailure (postChallengeFailureModes !! key1) args1 = Normal f1 ->
  makeFailure (postChallengeFailureModes !! key2) args2 = Normal f2 ->
  failure_name f1 = failure_name f2 ->
  key1 = key2 /\ definition f1 = definition f2.
Proof.
  assert (Hinv : forall key args f,
    makeFailure (postChallengeFailureModes !! key) args = Normal f ->
    In (key, definition f, failure_name f)
      [ ("NO_TOML", 0%nat, "no TOML file");
        ("NO_WEB_AUTH_ENDPOINT", 1%nat, "no WEB_AUTH_ENDPOINT");
        ("CONNECTION_ERROR", 2%nat, "connection error");
        ("UNEXPECTED_STATUS_CODE", 3%nat, "unexpected status code");
        ("BAD_CONTENT_TYPE", 4%nat, "bad content type");
        ("NO_TRANSACTION", 5%nat, "missing 'transaction' field");
        ("DESERIALIZATION_FAILED", 6%nat, "transaction deserialization failed");
        ("INVALID_TRANSACTION_TYPE", 7%nat, "invalid transaction type");
        ("NONZERO_SEQUENCE_NUMBER", 8%nat, "non-zero sequence number");
        ("NO_TOKEN", 9%nat, "no token");
        ("JWT_DECODE_FAILURE", 10%nat, "JWT decode failure");
        ("JWT_NOT_JSON", 11%nat, "JWT contents is not JSON");
        ("INVALID_JWT_SCHEMA", 12%nat, "invalid JWT content schema");
        ("INVALID_JWT_SUB", 13%nat, "invalid jwt 'sub' attribute") ]).
  { intros key args f. unfold makeFailure.
    destruct (postChallengeFailureModes !! key) as [r|] eqn:Hkey; [|discriminate].
    rewrite postChallengeFailureModes_eq, getChallengeFailureModes_eq in Hkey.
    apply lookup_union_Some_raw in Hkey.
    assert (Hr : In (key, r)
      [ ("NO_TOKEN", 9%nat); ("JWT_DECODE_FAILURE", 10%nat);
        ("JWT_NOT_JSON", 11%nat); ("INVALID_JWT_SCHEMA", 12%nat);
        ("INVALID_JWT_SUB", 13%nat);
        ("NO_TOML", 0%nat); ("NO_WEB_AUTH_ENDPOINT", 1%nat);
        ("CONNECTION_ERROR", 2%nat); ("UNEXPECTED_STATUS_CODE", 3%nat);
        ("BAD_CONTENT_TYPE", 4%nat); ("NO_TRANSACTION", 5%nat);
        ("DESERIALIZATION_FAILED", 6%nat); ("INVALID_TRANSACTION_TYPE", 7%nat);
        ("NONZERO_SEQUENCE_NUMBER", 8%nat) ]).
    { destruct Hkey as [Hown | [_ Hshared]].
      - apply elem_of_list_to_map_2, list_elem_of_In in Hown.
        apply (in_or_app _ _ _ (or_introl Hown)).
      - apply elem_of_list_to_map_2, list_elem_of_In in Hshared.
        apply (in_or_app [_; _; _; _; _] _ _ (or_intror Hshared)). }
    cbn in Hr.
    repeat (destruct Hr as [Hr|Hr];
            [injection Hr as <- <-; cbn; intros [= <-]; cbn; tauto|]).
    contradiction. }
  intros H1 H2 Hname.
  apply Hinv in H1. apply Hinv in H2. rewrite Hname in H1. cbn in H1, H2.
  repeat (destruct H1 as [H1|H1]; [injection H1 as <- <- Hn1|]); try contradiction;
    rewrite <- Hn1 in H2;
    repeat (destruct H2 as [H2|H2];
            [first [discriminate H2 | injection H2 as <- <-; split; reflexivity]|]);
    contradiction.
Qed.

(** ** The further properties on the concrete exchange *)

Lemma edge_get_transaction (envelope : string) :
  String.eqb envelope "" = false ->
  get_transaction
    (Scenario.fetch (Normal (Scenario.challengeResponse envelope)) (Thrown "unreachable"))
    Scenario.client Scenario.toml (Scenario.challengeResponse envelope) (JStr envelope).
Proof.
  intros Hnonempty. split; [apply scenario_get_answered|].
  split; [split; reflexivity|].
  eexists. split; [reflexivity|]. split; [reflexivity|].
  cbn [truthy]. rewrite Hnonempty. reflexivity.
Defined.

Lemma edge_get_fetched (clientKeypair : Keypair) (postAnswer : Completion Response) :
  publicKey clientKeypair = "GCLIENT" ->
  get_fetched
    (Scenario.fetch (Normal (Scenario.challengeResponse "AAAA")) postAnswer)
    Scenario.fromXDR clientKeypair Scenario.toml
    (Scenario.challengeResponse "AAAA") Scenario.issued.
Proof.
  destruct clientKeypair as [pk seed]. cbn [publicKey]. intros ->. reflexivity.
Defined.

Lemma edge_post_token (token : string) :
  String.eqb token "" = false ->
  post_token
    (Scenario.fetch (Normal (Scenario.challengeResponse "AAAA"))
       (Normal (Scenario.tokenResponse token)))
    Scenario.fromXDR Scenario.sign Scenario.toXDR Scenario.client Scenario.toml
    false (Scenario.challengeResponse "AAAA") Scenario.signed
    (Scenario.tokenResponse token) (JStr token).
Proof.
  intros Hnonempty. split; [apply scenario_post_answered|].
  split; [split; reflexivity|].
  eexists. split; [reflexivity|]. split; [reflexivity|].
  cbn [truthy]. rewrite Hnonempty. reflexivity.
Defined.

Lemma absent_metadata_is_no_toml_witness :
  truthy JUndefined = false
  /\ exists f,
       makeFailure (getChallengeFailureModes !! "NO_TOML") ∅ = Normal f
       /\ failure_name f = "no TOML file"
       /\ message f = "Unable to fetch TOML"
       /\ Scenario.getRun Scenario.notFound JUndefined = ([SetFailure f], Normal None)
       /\ postChallenge
            (Scenario.fetch (Normal Scenario.notFound) (Thrown "unreachable"))
            Scenario.fromXDR Scenario.sign Scenario.toXDR Scenario.fromPublicKey
            Scenario.decode Scenario.jwtSchema Scenario.validate Scenario.client
            JUndefined true
          = ([SetFailure f], Normal None).
Proof.
  split; [reflexivity|].
  exact (absent_metadata_is_no_toml
           (Scenario.fetch (Normal Scenario.notFound) (Thrown "unreachable"))
           Scenario.fromXDR Scenario.sign Scenario.toXDR Scenario.fromPublicKey
           Scenario.decode Scenario.jwtSchema Scenario.validate Scenario.client
           JUndefined true eq_refl).
Defined.



Lemma getChallenge_fee_bump_refused_witness :
  get_transaction
    (Scenario.fetch (Normal (Scenario.challengeResponse "FFFF")) (Thrown "unreachable"))
    Scenario.client Scenario.toml (Scenario.challengeResponse "FFFF") (JStr "FFFF")
  /\ Scenario.fromXDR (JStr "FFFF") (prop Scenario.toml "NETWORK_PASSPHRASE")
     = Normal (IsFeeBump (mkFeeBump Scenario.issued "GFEE"))
  /\ sequence (innerTransaction (mkFeeBump Scenario.issued "GFEE")) = "0"
  /\ exists f,
       failure_name f = "invalid transaction type"
       /\ Scenario.getRun (Scenario.challengeResponse "FFFF") Scenario.toml
          = (get_calls Scenario.client Scenario.toml (Scenario.challengeResponse "FFFF")
               ++ [SetFailure f],
             Normal None).
Proof.
  pose proof (edge_get_transaction "FFFF" eq_refl) as Hreached.
  split; [exact Hreached|]. split; [reflexivity|]. split; [reflexivity|].
  destruct (getChallenge_fee_bump_refused _ Scenario.fromXDR _ _ _ _
              (mkFeeBump Scenario.issued "GFEE") Hreached eq_refl)
    as (f & _ & Hname & Hrun).
  exists f. split; [exact Hname | exact Hrun].
Defined.

Lemma getChallenge_returns_validated_witness :
  completion (Scenario.getRun (Scenario.challengeResponse "AAAA") Scenario.toml)
  = Normal (Some Scenario.issued)
  /\ sequence Scenario.issued = "0"
  /\ run (Scenario.getRun (Scenario.challengeResponse "AAAA") Scenario.toml)
       Scenario.emptyResult
     = (mkResult [Scenario.getCall (Scenario.challengeResponse "AAAA")] None None None,
        Normal (Some Scenario.issued)).
Proof.
  assert (Hsuccess :
    completion (Scenario.getRun (Scenario.challengeResponse "AAAA") Scenario.toml)
    = Normal (Some Scenario.issued)) by reflexivity.
  split; [exact Hsuccess|].
  destruct (getChallenge_returns_validated
              (Scenario.fetch (Normal (Scenario.challengeResponse "AAAA"))
                 (Thrown "unreachable"))
              Scenario.fromXDR Scenario.client Scenario.toml Scenario.issued Hsuccess)
    as (resp & transaction & _ & _ & Hzero & _).
  split; [exact Hzero | reflexivity].
Defined.

Lemma postChallenge_signing_error_escapes_witness :
  get_fetched
    (Scenario.fetch (Normal (Scenario.challengeResponse "AAAA"))
       (Normal (Scenario.tokenResponse "other.sub")))
    Scenario.fromXDR Edge.verifier Scenario.toml
    (Scenario.challengeResponse "AAAA") Scenario.issued
  /\ Scenario.sign Scenario.issued Edge.verifier
     = Thrown "cannot sign: no secret key available"
  /\ Edge.postRun Edge.verifier (Scenario.challengeResponse "AAAA")
       (Normal (Scenario.tokenResponse "other.sub"))
     = (get_calls Edge.verifier Scenario.toml (Scenario.challengeResponse "AAAA"),
        Thrown "cannot sign: no secret key available")
  /\ pushes
       (writes (Edge.postRun Edge.verifier (Scenario.challengeResponse "AAAA")
                  (Normal (Scenario.tokenResponse "other.sub")))) = 1%nat
  /\ failure_assignments
       (writes (Edge.postRun Edge.verifier (Scenario.challengeResponse "AAAA")
                  (Normal (Scenario.tokenResponse "other.sub")))) = 0%nat.
Proof.
  pose proof (edge_get_fetched Edge.verifier
                (Normal (Scenario.tokenResponse "other.sub")) eq_refl) as Hget.
  split; [exact Hget|]. split; [reflexivity|].
  exact (postChallenge_signing_error_escapes _ _ Scenario.sign Scenario.toXDR
           Scenario.fromPublicKey Edge.decode Scenario.jwtSchema Edge.validate
           _ _ false _ _ _ Hget eq_refl).
Defined.


Lemma postChallenge_exception_escapes_witness :
  response_acceptable Scenario.unparseable
  /\ json Scenario.unparseable = Thrown "invalid json response body"
  /\ Edge.postRun Scenario.client (Scenario.challengeResponse "AAAA")
       (Normal Scenario.unparseable)
     = (get_calls Scenario.client Scenario.toml (Scenario.challengeResponse "AAAA")
          ++ post_calls false Scenario.toml (Scenario.toXDR Scenario.signed)
               Scenario.unparseable,
        Thrown "invalid json response body")
  /\ json Edge.nullBody = Normal JNull
  /\ Edge.postRun Scenario.client (Scenario.challengeResponse "AAAA")
       (Normal Edge.nullBody)
     = (get_calls Scenario.client Scenario.toml (Scenario.challengeResponse "AAAA")
          ++ post_calls false Scenario.toml (Scenario.toXDR Scenario.signed)
               Edge.nullBody,
        Thrown "TypeError: Cannot read properties of null").
Proof.
  pose (claim := fun resp Hacceptable =>
    postChallenge_exception_escapes _ _ _ _ Scenario.fromPublicKey Edge.decode
      Scenario.jwtSchema Edge.validate _ _ _ _ _ _
      (scenario_post_answered resp) Hacceptable).
  split; [split; reflexivity|]. split; [reflexivity|].
  split; [exact (proj1 (claim Scenario.unparseable (conj eq_refl eq_refl)) _ eq_refl)|].
  split; [reflexivity|].
  exact (proj2 (claim Edge.nullBody (conj eq_refl eq_refl)) eq_refl).
Defined.

Lemma postChallenge_jwt_decode_failure_witness :
  post_token
    (Scenario.fetch (Normal (Scenario.challengeResponse "AAAA"))
       (Normal (Scenario.tokenResponse "garbage")))
    Scenario.fromXDR Scenario.sign Scenario.toXDR Scenario.client Scenario.toml
    false (Scenario.challengeResponse "AAAA") Scenario.signed
    (Scenario.tokenResponse "garbage") (JStr "garbage")
  /\ Edge.decode (JStr "garbage") = Thrown "jwt malformed"
  /\ exists f,
       failure_name f = "JWT decode failure"
       /\ message f
          = "Unable to decode the JWT." +:+ LF +:+ LF
            +:+ "The jsonwebtoken library returned: " +:+ "jwt malformed"
       /\ Edge.postRun Scenario.client (Scenario.challengeResponse "AAAA")
            (Normal (Scenario.tokenResponse "garbage"))
          = (get_calls Scenario.client Scenario.toml
               (Scenario.challengeResponse "AAAA")
               ++ post_calls false Scenario.toml (Scenario.toXDR Scenario.signed)
                    (Scenario.tokenResponse "garbage")
               ++ [SetFailure f],
             Normal None).
Proof.
  pose proof (edge_post_token "garbage" eq_refl) as Htoken.
  split; [exact Htoken|]. split; [reflexivity|].
  destruct (postChallenge_jwt_decode_failure _ _ _ _ Scenario.fromPublicKey
              Edge.decode Scenario.jwtSchema Edge.validate _ _ _ _ _ _ _
              "jwt malformed" Htoken eq_refl)
    as (f & _ & Hname & Hmessage & Hrun).
  exists f. split; [exact Hname|]. split; [exact Hmessage | exact Hrun].
Defined.

Lemma postChallenge_jwt_not_json_witness :
  (Edge.decode (JStr "text") = Normal (JStr "payload")
   /\ object_or_array (JStr "payload") = false
   /\ exists f,
        failure_name f = "JWT contents is not JSON"
        /\ Edge.postRun Scenario.client (Scenario.challengeResponse "AAAA")
             (Normal (Scenario.tokenResponse "text"))
           = (get_calls Scenario.client Scenario.toml
                (Scenario.challengeResponse "AAAA")
                ++ post_calls false Scenario.toml (Scenario.toXDR Scenario.signed)
                     (Scenario.tokenResponse "text")
                ++ [SetFailure f],
              Normal None))
  /\ (Edge.decode (JStr "array") = Normal (JArr [])
      /\ object_or_array (JArr []) = true
      /\ forall f,
           In (SetFailure f)
             (writes (Edge.postRun Scenario.client (Scenario.challengeResponse "AAAA")
                        (Normal (Scenario.tokenResponse "array")))) ->
           failure_name f <> "JWT contents is not JSON").
Proof.
  pose (claim := fun token Hnonempty jwtContents =>
    postChallenge_jwt_not_json _ _ _ _ Scenario.fromPublicKey
      Edge.decode Scenario.jwtSchema Edge.validate _ _ _ _ _ _ _
      jwtContents (edge_post_token token Hnonempty)).
  split.
  - split; [reflexivity|]. split; [reflexivity|].
    destruct (proj1 (claim "text" eq_refl (JStr "payload") eq_refl) eq_refl)
      as (f & _ & Hname & Hrun).
    exists f. split; [exact Hname | exact Hrun].
  - split; [reflexivity|]. split; [reflexivity|].
    exact (proj2 (claim "array" eq_refl (JArr []) eq_refl) eq_refl).
Defined.

Lemma postChallenge_invalid_jwt_schema_witness :
  Edge.decode (JStr "no.sub") = Normal (JObj {[ "iat" := JNum 1 ]})
  /\ Edge.validate (JObj {[ "iat" := JNum 1 ]}) Scenario.jwtSchema
     = ["instance requires property sub"; "instance requires property exp"]
  /\ exists f,
       failure_name f = "invalid JWT content schema"
       /\ message f
          = "instance requires property sub" +:+ LF
            +:+ "instance requires property exp"
       /\ Edge.postRun Scenario.client (Scenario.challengeResponse "AAAA")
            (Normal (Scenario.tokenResponse "no.sub"))
          = (get_calls Scenario.client Scenario.toml
               (Scenario.challengeResponse "AAAA")
               ++ post_calls false Scenario.toml (Scenario.toXDR Scenario.signed)
                    (Scenario.tokenResponse "no.sub")
               ++ [SetFailure f],
             Normal None).
Proof.
  split; [reflexivity|]. split; [reflexivity|].
  assert (Herrors : Edge.validate (JObj {[ "iat" := JNum 1 ]}) Scenario.jwtSchema <> [])
    by discriminate.
  destruct (postChallenge_invalid_jwt_schema _ _ _ _ Scenario.fromPublicKey
              Edge.decode Scenario.jwtSchema Edge.validate _ _ _ _ _ _ _
              (JObj {[ "iat" := JNum 1 ]}) (edge_post_token "no.sub" eq_refl)
              eq_refl eq_refl Herrors)
    as (f & _ & Hname & Hmessage & Hrun).
  exists f. split; [exact Hname|]. split; [exact Hmessage | exact Hrun].
Defined.

Lemma postChallenge_outcome_classified_witness :
  (first_post_violation
     (Scenario.fetch (Normal (Scenario.challengeResponse "AAAA"))
        (Normal (Scenario.tokenResponse "other.sub")))
     Scenario.fromPublicKey Edge.decode Scenario.jwtSchema Edge.validate
     (postAuthCall_request false (prop Scenario.toml "WEB_AUTH_ENDPOINT")
        (Scenario.toXDR Scenario.signed)) = None
   /\ filter is_SetFailure
        (writes (Edge.postRun Scenario.client (Scenario.challengeResponse "AAAA")
                   (Normal (Scenario.tokenResponse "other.sub")))) = [])
  /\ exists key args f,
       first_post_violation
         (Scenario.fetch (Normal (Scenario.challengeResponse "AAAA"))
            (Normal (Scenario.tokenResponse "bad.sub")))
         Scenario.fromPublicKey Edge.decode Scenario.jwtSchema Edge.validate
         (postAuthCall_request false (prop Scenario.toml "WEB_AUTH_ENDPOINT")
            (Scenario.toXDR Scenario.signed)) = Some key
       /\ makeFailure (postChallengeFailureModes !! key) args = Normal f
       /\ filter is_SetFailure
            (writes (Edge.postRun Scenario.client (Scenario.challengeResponse "AAAA")
                       (Normal (Scenario.tokenResponse "bad.sub"))))
          = [SetFailure f].
Proof.
  pose (claim := fun postAnswer =>
    postChallenge_outcome_classified _ _ Scenario.sign Scenario.toXDR
      Scenario.fromPublicKey Edge.decode Scenario.jwtSchema Edge.validate
      _ _ false _ _ Scenario.signed
      (edge_get_fetched Scenario.client (Normal postAnswer) eq_refl) eq_refl).
  split.
  - exact (claim (Scenario.tokenResponse "other.sub")).
  - exact (claim (Scenario.tokenResponse "bad.sub")).
Defined.


Lemma diagnostics_only_on_mismatch_witness :
  In (SetExpected (JNum 200))
    (writes (Scenario.getRun Scenario.notFound Scenario.toml))
  /\ (exists f,
        In (SetFailure f) (writes (Scenario.getRun Scenario.notFound Scenario.toml))
        /\ (failure_name f = "unexpected status code"
            \/ failure_name f = "bad content type"))
  /\ In (SetActual (JNum 404))
       (writes (Scenario.postRun (Scenario.challengeResponse "AAAA") Scenario.notFound))
  /\ (exists f,
        In (SetFailure f)
          (writes (Scenario.postRun (Scenario.challengeResponse "AAAA")
                     Scenario.notFound))
        /\ (failure_name f = "unexpected status code"
            \/ failure_name f = "bad content type")).
Proof.
  assert (Hget : In (SetExpected (JNum 200))
                   (writes (Scenario.getRun Scenario.notFound Scenario.toml)))
    by (right; right; right; left; reflexivity).
  assert (Hpost : In (SetActual (JNum 404))
                    (writes (Scenario.postRun (Scenario.challengeResponse "AAAA")
                               Scenario.notFound)))
    by (do 6 right; left; reflexivity).
  split; [exact Hget|].
  split.
  - exact (proj1 (diagnostics_only_on_mismatch
                    (Scenario.fetch (Normal Scenario.notFound) (Thrown "unreachable"))
                    Scenario.fromXDR Scenario.sign Scenario.toXDR
                    Scenario.fromPublicKey Scenario.decode Scenario.jwtSchema
                    Scenario.validate Scenario.client Scenario.toml false
                    (SetExpected (JNum 200))
                    (ex_intro _ (JNum 200) (or_introl eq_refl))) Hget).
  - split; [exact Hpost|].
    exact (proj2 (diagnostics_only_on_mismatch
                    (Scenario.fetch (Normal (Scenario.challengeResponse "AAAA"))
                       (Normal Scenario.notFound))
                    Scenario.fromXDR Scenario.sign Scenario.toXDR
                    Scenario.fromPublicKey Scenario.decode Scenario.jwtSchema
                    Scenario.validate Scenario.client Scenario.toml false
                    (SetActual (JNum 404))
                    (ex_intro _ (JNum 404) (or_intror eq_refl))) Hpost).
Defined.

Lemma failure_name_determines_kind_witness :
  exists f1 f2,
    makeFailure (postChallengeFailureModes !! "CONNECTION_ERROR") ∅ = Normal f1
    /\ makeFailure (postChallengeFailureModes !! "CONNECTION_ERROR")
         {[ "url" := JStr "https://x/auth" ]} = Normal f2
    /\ failure_name f1 = failure_name f2
    /\ definition f1 = definition f2.
Proof.
  destruct (makeFailure_defined postChallengeFailureModes "CONNECTION_ERROR"
              ∅ 2%nat _ eq_refl eq_refl) as (f1 & H1 & _ & Hname1 & _).
  destruct (makeFailure_defined postChallengeFailureModes "CONNECTION_ERROR"
              {[ "url" := JStr "https://x/auth" ]} 2%nat _ eq_refl eq_refl)
    as (f2 & H2 & _ & Hname2 & _).
  assert (Hname : failure_name f1 = failure_name f2)
    by (rewrite Hname1, Hname2; reflexivity).
  exists f1, f2. split; [exact H1|]. split; [exact H2|]. split; [exact Hname|].
  exact (proj2 (failure_name_determines_kind _ _ _ _ _ _ H1 H2 Hname)).
Defined.
